(** * Performance regression analysis: a shallow embedding

    This development models [scripts/performance/regression-analysis.py]
    (class [PerformanceRegressionAnalyzer] and [main]) and proves the
    behavioural properties the specification states about it.

    Modelling conventions.
    - JSON documents are values of [json]; a parsed object keeps its
      bindings in insertion order and its keys are distinct.
    - Python exceptions are explicit: every operation that can raise
      returns a [result].
    - Python [int] is [Z]; Python [float] is modelled by exact rationals
      [Q] (rounding, overflow, NaN and infinities are outside the model).
    - Python [str] is a byte string (UTF-8); iterating over a string
      yields its bytes. *)

From Stdlib Require Import ZArith QArith Qabs Bool List Ascii String Lia Permutation.
From Stdlib Require Import Numbers.DecimalString.
Import ListNotations.

Set Warnings "-register-all".

Open Scope list_scope.
Open Scope string_scope.
Open Scope Z_scope.

(** ** Exceptions and the error monad *)

Inductive exn : Type :=
| AttributeError
| TypeError
| KeyError.

Inductive result (A : Type) : Type :=
| Ok (a : A)
| Raise (e : exn).

Arguments Ok {A} a.
Arguments Raise {A} e.

Definition bind {A B : Type} (m : result A) (k : A -> result B) : result B :=
  match m with
  | Ok a => k a
  | Raise e => Raise e
  end.

Notation "x <- m ;; k" := (bind m (fun x => k))
  (at level 61, m at next level, right associativity).

(** [for x in l: out.extend(f x)] with exceptions propagating. *)
Fixpoint flat_mapM {A B : Type} (f : A -> result (list B)) (l : list A)
  : result (list B) :=
  match l with
  | [] => Ok []
  | a :: rest =>
      rs <- f a ;;
      rs' <- flat_mapM f rest ;;
      Ok (rs ++ rs')%list
  end.

(** ** JSON values *)

Inductive json : Type :=
| JNull
| JBool (b : bool)
| JInt (z : Z)
| JFloat (q : Q)
| JStr (s : string)
| JArr (l : list json)
| JObj (kvs : list (string * json)).

(** ** Insertion-ordered dictionaries

    A Python [dict] keeps keys in the order of their first insertion;
    assigning to an existing key replaces the value and keeps the key
    object already stored. *)

Section PyDict.
Context {K V : Type} (keq : K -> K -> bool).

Fixpoint dict_lookup (k : K) (d : list (K * V)) : option V :=
  match d with
  | [] => None
  | (k', v) :: rest => if keq k' k then Some v else dict_lookup k rest
  end.

Fixpoint dict_set (k : K) (v : V) (d : list (K * V)) : list (K * V) :=
  match d with
  | [] => [(k, v)]
  | (k', v') :: rest =>
      if keq k' k then (k', v) :: rest else (k', v') :: dict_set k v rest
  end.

(** [for item in items: grouped[key(item)] = item], the grouping loop
    shared by the page-audit and load-test comparators. *)
Fixpoint group_items (key : V -> result K) (items : list V)
    (grouped : list (K * V)) : result (list (K * V)) :=
  match items with
  | [] => Ok grouped
  | item :: rest =>
      k <- key item ;;
      group_items key rest (dict_set k item grouped)
  end.

(** Keys of a dictionary are pairwise different. *)
Fixpoint dict_wf (d : list (K * V)) : Prop :=
  match d with
  | [] => True
  | (k, _) :: rest =>
      (forall k' v', In (k', v') rest -> keq k k' = false) /\ dict_wf rest
  end.

(** [item] is filed under a key equal to [k]. *)
Definition has_key (key : V -> result K) (k : K) (item : V) : bool :=
  match key item with
  | Ok k' => keq k' k
  | Raise _ => false
  end.
End PyDict.

(** The last element of [l], in list order, that satisfies [p]. *)
Fixpoint find_last {A : Type} (p : A -> bool) (l : list A) : option A :=
  match l with
  | [] => None
  | x :: rest =>
      match find_last p rest with
      | Some y => Some y
      | None => if p x then Some x else None
      end
  end.

(** ** Python primitives on JSON values *)

(** [obj.get(key, default)]: only a dict has [get]. *)
Definition dict_get (obj : json) (key : string) (default : json) : result json :=
  match obj with
  | JObj kvs =>
      match dict_lookup String.eqb key kvs with
      | Some v => Ok v
      | None => Ok default
      end
  | _ => Raise AttributeError
  end.

(** Truth value of an object ([if x], [not x]). *)
Definition py_truthy (j : json) : bool :=
  match j with
  | JNull => false
  | JBool b => b
  | JInt z => negb (z =? 0)
  | JFloat q => negb (Qeq_bool q 0)
  | JStr s => negb (String.eqb s EmptyString)
  | JArr l => match l with [] => false | _ => true end
  | JObj kvs => match kvs with [] => false | _ => true end
  end.

(** Numeric value of an operand of [>], [-] and [/]; [bool] is a subclass
    of [int]; any other type raises [TypeError] against a number. *)
Definition as_num (j : json) : result Q :=
  match j with
  | JBool b => Ok (if b then 1%Q else 0%Q)
  | JInt z => Ok (inject_Z z)
  | JFloat q => Ok q
  | _ => Raise TypeError
  end.

(** [a - b] on numbers: [int - int] is an [int], anything else a [float]. *)
Definition as_int (j : json) : option Z :=
  match j with
  | JBool b => Some (if b then 1 else 0)
  | JInt z => Some z
  | _ => None
  end.

Definition py_sub (a b : json) : result json :=
  match as_int a, as_int b with
  | Some x, Some y => Ok (JInt (x - y))
  | _, _ =>
      x <- as_num a ;;
      y <- as_num b ;;
      Ok (JFloat (x - y)%Q)
  end.

Definition Qgtb (x y : Q) : bool := negb (Qle_bool x y).

(** Iteration ([for x in obj]): a list yields its elements, a dict its
    keys, a string its characters; other JSON types are not iterable. *)
Fixpoint chars (s : string) : list json :=
  match s with
  | EmptyString => []
  | String c rest => JStr (String c EmptyString) :: chars rest
  end.

Definition py_iter (j : json) : result (list json) :=
  match j with
  | JArr l => Ok l
  | JObj kvs => Ok (map (fun kv => JStr (fst kv)) kvs)
  | JStr s => Ok (chars s)
  | _ => Raise TypeError
  end.

(** [len(obj)]. *)
Definition py_len (j : json) : result nat :=
  match j with
  | JArr l => Ok (List.length l)
  | JObj kvs => Ok (List.length kvs)
  | JStr s => Ok (String.length s)
  | _ => Raise TypeError
  end.

(** [obj[i]] for an index [i] already known to be below [len(obj)]; a dict
    parsed from JSON has string keys only, so an integer subscript raises
    [KeyError]. *)
Definition py_index (j : json) (i : nat) : result json :=
  match j with
  | JArr l => match nth_error l i with Some x => Ok x | None => Raise KeyError end
  | JStr s => match nth_error (chars s) i with Some x => Ok x | None => Raise KeyError end
  | JObj _ => Raise KeyError
  | _ => Raise TypeError
  end.

(** ** Text conversion *)

Definition Z_to_string (z : Z) : string := NilZero.string_of_int (Z.to_int z).

Definition digit_char (d : Z) : string :=
  String (ascii_of_nat (48 + Z.to_nat d)) EmptyString.

Fixpoint frac_digits (fuel : nat) (num den : Z) : string :=
  match fuel with
  | O => EmptyString
  | S f =>
      if num =? 0 then EmptyString
      else digit_char ((10 * num) / den) ++ frac_digits f ((10 * num) mod den) den
  end.

(** [str] of a float: the decimal expansion of the rational, at most 17
    fractional digits and at least one.  It agrees with Python for floats
    whose shortest representation is a plain decimal. *)
Definition float_str (q : Q) : string :=
  let n := Z.abs (Qnum q) in
  let d := Z.pos (Qden q) in
  (if Qnum q <? 0 then "-" else EmptyString)
  ++ Z_to_string (n / d) ++ "."
  ++ match frac_digits 17 (n mod d) d with
     | EmptyString => "0"
     | s => s
     end.

(** Rounding to the nearest integer, ties to even. *)
Definition round_half_even (q : Q) : Z :=
  let n := Qnum q in
  let d := Z.pos (Qden q) in
  let fl := n / d in
  let r := 2 * (n mod d) in
  if r <? d then fl
  else if d <? r then fl + 1
  else if Z.even fl then fl else fl + 1.

(** The format [{x:.1%}]: the value times 100 with one digit after the
    point, followed by a percent sign. *)
Definition fmt_pct1 (q : Q) : string :=
  let t := round_half_even (Qabs q * 1000) in
  (if Qnum q <? 0 then "-" else EmptyString)
  ++ Z_to_string (t / 10) ++ "." ++ digit_char (t mod 10) ++ "%".

Definition squote : string := String (ascii_of_nat 39) EmptyString.
Definition dquote : string := String (ascii_of_nat 34) EmptyString.
Definition backslash : string := String (ascii_of_nat 92) EmptyString.

Fixpoint has_char (c : ascii) (s : string) : bool :=
  match s with
  | EmptyString => false
  | String c' rest => Ascii.eqb c c' || has_char c rest
  end.

Fixpoint escape (q : ascii) (s : string) : string :=
  match s with
  | EmptyString => EmptyString
  | String c rest =>
      (if Ascii.eqb c q || Ascii.eqb c (ascii_of_nat 92)
       then backslash ++ String c EmptyString
       else if Ascii.eqb c (ascii_of_nat 10) then backslash ++ "n"
       else if Ascii.eqb c (ascii_of_nat 13) then backslash ++ "r"
       else if Ascii.eqb c (ascii_of_nat 9) then backslash ++ "t"
       else String c EmptyString) ++ escape q rest
  end.

(** [repr] of a string nested in a container: single quotes unless the
    text has a single quote and no double quote. *)
Definition str_repr (s : string) : string :=
  if has_char (ascii_of_nat 39) s && negb (has_char (ascii_of_nat 34) s)
  then dquote ++ escape (ascii_of_nat 34) s ++ dquote
  else squote ++ escape (ascii_of_nat 39) s ++ squote.

Fixpoint py_repr (j : json) : string :=
  match j with
  | JNull => "None"
  | JBool b => if b then "True" else "False"
  | JInt z => Z_to_string z
  | JFloat q => float_str q
  | JStr s => str_repr s
  | JArr l =>
      "[" ++ (fix items (l : list json) : string :=
                match l with
                | [] => EmptyString
                | x :: rest =>
                    match rest with
                    | [] => py_repr x
                    | _ => py_repr x ++ ", " ++ items rest
                    end
                end) l ++ "]"
  | JObj kvs =>
      "{" ++ (fix items (l : list (string * json)) : string :=
                match l with
                | [] => EmptyString
                | (k, v) :: rest =>
                    match rest with
                    | [] => str_repr k ++ ": " ++ py_repr v
                    | _ => str_repr k ++ ": " ++ py_repr v ++ ", " ++ items rest
                    end
                end) kvs ++ "}"
  end.

(** [str(x)], as used by f-string interpolation [{x}]. *)
Definition py_str (j : json) : string :=
  match j with
  | JStr s => s
  | _ => py_repr j
  end.

(** ** Regression records and the analyzer state *)

Record regression : Type := mkRegression {
  r_type : string;
  r_metric : string;
  r_baseline : json;
  r_current : json;
  r_change : Q;
  r_severity : string;
  r_description : string
}.

(** The fields of [PerformanceRegressionAnalyzer] set by [__init__]. *)
Record analyzer : Type := mkAnalyzer {
  threshold : Q;
  baseline_data : json;
  current_data : json;
  regressions : list regression;
  improvements : list regression
}.

Definition init (th : Q) : analyzer :=
  mkAnalyzer th (JObj []) (JObj []) [] [].

(** ** Page-audit (Lighthouse) comparator *)

(** [f"{item.get('device', 'unknown')}-{item.get('page', 'unknown')}"] *)
Definition lighthouse_key (item : json) : result string :=
  d <- dict_get item "device" (JStr "unknown") ;;
  p <- dict_get item "page" (JStr "unknown") ;;
  Ok (py_str d ++ "-" ++ py_str p).

(** [for item in items: grouped[key] = item] *)
Definition group_lighthouse (items : list json) : result (list (string * json)) :=
  group_items String.eqb lighthouse_key items [].

Definition lighthouse_metrics : list string :=
  ["performance"; "accessibility"; "bestPractices"; "seo"].

Definition lighthouse_regression (key metric : string) (bv cv : json) (change : Q)
  : regression :=
  mkRegression "lighthouse" (key ++ "-" ++ metric) bv cv change
    (if Qgtb change (2 # 10) then "critical" else "moderate")
    ("Lighthouse " ++ metric ++ " degraded by " ++ fmt_pct1 change ++ " for " ++ key).

(** Body of [for metric in metrics]. *)
Definition lighthouse_metric (th : Q) (key : string) (bitem citem : json)
    (metric : string) : result (list regression) :=
  bv <- dict_get bitem metric (JInt 0) ;;
  cv <- dict_get citem metric (JInt 0) ;;
  b <- as_num bv ;;
  if Qgtb b 0 then
    c <- as_num cv ;;
    let change := ((b - c) / b)%Q in
    if Qgtb change th
    then Ok [lighthouse_regression key metric bv cv change]
    else Ok []
  else Ok [].

(** Body of [for key in baseline_grouped]. *)
Definition lighthouse_entry (th : Q) (current_grouped : list (string * json))
    (kv : string * json) : result (list regression) :=
  match dict_lookup String.eqb (fst kv) current_grouped with
  | None => Ok []
  | Some citem =>
      flat_mapM (lighthouse_metric th (fst kv) (snd kv) citem) lighthouse_metrics
  end.

Definition analyze_lighthouse_regression (self : analyzer)
  : result (list regression) :=
  baseline_lighthouse <- dict_get (baseline_data self) "lighthouse" (JArr []) ;;
  current_lighthouse <- dict_get (current_data self) "lighthouse" (JArr []) ;;
  bitems <- py_iter baseline_lighthouse ;;
  baseline_grouped <- group_lighthouse bitems ;;
  citems <- py_iter current_lighthouse ;;
  current_grouped <- group_lighthouse citems ;;
  flat_mapM (lighthouse_entry (threshold self) current_grouped) baseline_grouped.

(** ** Load-test comparator *)

(** Dictionary keys: lists and dicts are unhashable. *)
Definition hashable (j : json) : bool :=
  match j with
  | JArr _ | JObj _ => false
  | _ => true
  end.

(** Equality of hashable keys: numbers (booleans included) compare by
    value, strings by content, [None] equals only itself. *)
Definition key_eqb (a b : json) : bool :=
  match a, b with
  | JNull, JNull => true
  | JStr s, JStr t => String.eqb s t
  | (JBool _ | JInt _ | JFloat _), (JBool _ | JInt _ | JFloat _) =>
      match as_num a, as_num b with
      | Ok x, Ok y => Qeq_bool x y
      | _, _ => false
      end
  | _, _ => false
  end.

(** The key [item.get('scenario', 'unknown')] of the dict comprehension;
    storing under an unhashable key raises [TypeError]. *)
Definition scenario_key (item : json) : result json :=
  s <- dict_get item "scenario" (JStr "unknown") ;;
  if hashable s then Ok s else Raise TypeError.

(** [{item.get('scenario', 'unknown'): item for item in items}] *)
Definition group_load (items : list json) : result (list (json * json)) :=
  group_items key_eqb scenario_key items [].

(** [item.get('metrics', {}).get(group, {}).get(field, 0)] *)
Definition load_metric (item : json) (group field : string) : result json :=
  m <- dict_get item "metrics" (JObj []) ;;
  g <- dict_get m group (JObj []) ;;
  dict_get g field (JInt 0).

Definition response_time_regression (scenario : json) (bv cv : json) (change : Q)
  : regression :=
  mkRegression "load_test" (py_str scenario ++ "-response_time") bv cv change
    (if Qgtb change (5 # 10) then "critical" else "moderate")
    ("Response time increased by " ++ fmt_pct1 change ++ " for "
       ++ py_str scenario ++ " scenario").

Definition error_rate_regression (scenario : json) (bv cv : json) (change : Q)
  : regression :=
  mkRegression "load_test" (py_str scenario ++ "-error_rate") bv cv change
    "critical"
    ("Error rate increased by " ++ fmt_pct1 change ++ " for "
       ++ py_str scenario ++ " scenario").

Definition response_time_check (th : Q) (scenario bitem citem : json)
  : result (list regression) :=
  baseline_rt <- load_metric bitem "http_req_duration" "avg" ;;
  current_rt <- load_metric citem "http_req_duration" "avg" ;;
  b <- as_num baseline_rt ;;
  if Qgtb b 0 then
    c <- as_num current_rt ;;
    let rt_change := ((c - b) / b)%Q in
    if Qgtb rt_change th
    then Ok [response_time_regression scenario baseline_rt current_rt rt_change]
    else Ok []
  else Ok [].

Definition error_rate_check (scenario bitem citem : json)
  : result (list regression) :=
  baseline_errors <- load_metric bitem "http_req_failed" "rate" ;;
  current_errors <- load_metric citem "http_req_failed" "rate" ;;
  c <- as_num current_errors ;;
  b <- as_num baseline_errors ;;
  let error_change := (c - b)%Q in
  if Qgtb error_change (1 # 100)
  then Ok [error_rate_regression scenario baseline_errors current_errors error_change]
  else Ok [].

(** Body of [for scenario in baseline_grouped]. *)
Definition load_entry (th : Q) (current_grouped : list (json * json))
    (kv : json * json) : result (list regression) :=
  match dict_lookup key_eqb (fst kv) current_grouped with
  | None => Ok []
  | Some citem =>
      rt <- response_time_check th (fst kv) (snd kv) citem ;;
      er <- error_rate_check (fst kv) (snd kv) citem ;;
      Ok (rt ++ er)%list
  end.

Definition analyze_load_test_regression (self : analyzer)
  : result (list regression) :=
  baseline_load <- dict_get (baseline_data self) "loadTests" (JArr []) ;;
  current_load <- dict_get (current_data self) "loadTests" (JArr []) ;;
  bitems <- py_iter baseline_load ;;
  baseline_grouped <- group_load bitems ;;
  citems <- py_iter current_load ;;
  current_grouped <- group_load citems ;;
  flat_mapM (load_entry (threshold self) current_grouped) baseline_grouped.

(** ** Benchmark comparator *)

Definition nat_to_string (n : nat) : string := Z_to_string (Z.of_nat n).

(** [enumerate(l)] *)
Definition enumerate {A : Type} (l : list A) : list (nat * A) :=
  combine (seq 0 (List.length l)) l.

Definition benchmark_types : list string := ["memory"; "cpu"; "algorithm"].

Definition benchmark_regression (test_type : string) (test_name : json)
    (bv cv : json) (change : Q) : regression :=
  mkRegression "benchmark" (test_type ++ "-" ++ py_str test_name) bv cv change
    "moderate"
    ("Benchmark " ++ py_str test_name ++ " execution time increased by "
       ++ fmt_pct1 change).

(** Body of [for i, baseline_result in enumerate(baseline_results)]. *)
Definition benchmark_result (th : Q) (test_type : string) (current_results : json)
    (ib : nat * json) : result (list regression) :=
  let i := fst ib in
  let baseline_result := snd ib in
  n <- py_len current_results ;;
  if (n <=? i)%nat then Ok []
  else
    current_result <- py_index current_results i ;;
    baseline_time <- dict_get baseline_result "duration" (JInt 0) ;;
    current_time <- dict_get current_result "duration" (JInt 0) ;;
    b <- as_num baseline_time ;;
    if Qgtb b 0 then
      c <- as_num current_time ;;
      let time_change := ((c - b) / b)%Q in
      if Qgtb time_change th then
        test_name <- dict_get baseline_result "title"
                       (JStr (test_type ++ "-test-" ++ nat_to_string i)) ;;
        Ok [benchmark_regression test_type test_name baseline_time current_time
              time_change]
      else Ok []
    else Ok [].

(** Body of [for test_type in ['memory', 'cpu', 'algorithm']]. *)
Definition benchmark_type (th : Q) (baseline_benchmarks current_benchmarks : json)
    (test_type : string) : result (list regression) :=
  baseline_test <- dict_get baseline_benchmarks test_type (JObj []) ;;
  current_test <- dict_get current_benchmarks test_type (JObj []) ;;
  if negb (py_truthy baseline_test) || negb (py_truthy current_test) then Ok []
  else
    baseline_results <- dict_get baseline_test "testResults" (JArr []) ;;
    current_results <- dict_get current_test "testResults" (JArr []) ;;
    bitems <- py_iter baseline_results ;;
    flat_mapM (benchmark_result th test_type current_results) (enumerate bitems).

Definition analyze_benchmark_regression (self : analyzer)
  : result (list regression) :=
  baseline_benchmarks <- dict_get (baseline_data self) "benchmarks" (JObj []) ;;
  current_benchmarks <- dict_get (current_data self) "benchmarks" (JObj []) ;;
  flat_mapM (benchmark_type (threshold self) baseline_benchmarks current_benchmarks)
    benchmark_types.

(** ** Bundle comparator *)

Definition bundle_regression (bv cv : json) (change : Q) (delta : json)
  : regression :=
  mkRegression "bundle" "total_size" bv cv change "moderate"
    ("Bundle size increased by " ++ fmt_pct1 change ++ " ("
       ++ py_str delta ++ " bytes)").

Definition analyze_bundle_regression (self : analyzer)
  : result (list regression) :=
  baseline_bundle <- dict_get (baseline_data self) "bundle" (JObj []) ;;
  current_bundle <- dict_get (current_data self) "bundle" (JObj []) ;;
  if negb (py_truthy baseline_bundle) || negb (py_truthy current_bundle) then Ok []
  else
    baseline_size <- dict_get baseline_bundle "totalSize" (JInt 0) ;;
    current_size <- dict_get current_bundle "totalSize" (JInt 0) ;;
    b <- as_num baseline_size ;;
    if Qgtb b 0 then
      c <- as_num current_size ;;
      let size_change := ((c - b) / b)%Q in
      if Qgtb size_change (threshold self) then
        delta <- py_sub current_size baseline_size ;;
        Ok [bundle_regression baseline_size current_size size_change delta]
      else Ok []
    else Ok [].

(** ** Recommendations and the report *)

Definition has_type (t : string) (r : regression) : bool :=
  String.eqb (r_type r) t.

Definition has_severity (s : string) (r : regression) : bool :=
  String.eqb (r_severity r) s.

(** [if xs: out.append(msg)] *)
Definition append_if {A : Type} (xs : list A) (msg : string) (out : list string)
  : list string :=
  match xs with
  | [] => out
  | _ => (out ++ [msg])%list
  end.

Definition msg_bundle : string :=
  "📦 Bundle size increased - consider code splitting, tree shaking, or dependency analysis".
Definition msg_lighthouse : string :=
  "🔍 Lighthouse scores degraded - review Core Web Vitals, optimize images, and minimize JavaScript".
Definition msg_load : string :=
  "⚡ Load test performance degraded - check database queries, API responses, and server resources".
Definition msg_benchmark : string :=
  "🧮 Benchmark performance degraded - review algorithm implementations and memory usage".
Definition msg_critical : string :=
  "🚨 Critical regressions detected - consider blocking deployment until resolved".
Definition msg_none : string :=
  "✅ No significant performance regressions detected".

Definition generate_recommendations (regs : list regression) : list string :=
  let recommendations := [] in
  let recommendations :=
    append_if (filter (has_type "bundle") regs) msg_bundle recommendations in
  let recommendations :=
    append_if (filter (has_type "lighthouse") regs) msg_lighthouse recommendations in
  let recommendations :=
    append_if (filter (has_type "load_test") regs) msg_load recommendations in
  let recommendations :=
    append_if (filter (has_type "benchmark") regs) msg_benchmark recommendations in
  let recommendations :=
    append_if (filter (has_severity "critical") regs) msg_critical recommendations in
  match recommendations with
  | [] => [msg_none]
  | _ => recommendations
  end.

(** The dict returned by [analyze_regressions]; the key ['regressions'] is
    the local [all_regressions], the key ['threshold'] is [rep_threshold]. *)
Record report : Type := mkReport {
  summary : string;
  all_regressions : list regression;
  criticalRegressions : list regression;
  moderateRegressions : list regression;
  recommendations : list string;
  rep_threshold : Q;
  timestamp : string
}.

(** [now] is the value of [datetime.now().isoformat()] at the call. *)
Definition analyze_regressions (self : analyzer) (now : string) : result report :=
  lighthouse <- analyze_lighthouse_regression self ;;
  load <- analyze_load_test_regression self ;;
  bench <- analyze_benchmark_regression self ;;
  bundle <- analyze_bundle_regression self ;;
  let all := (lighthouse ++ load ++ bench ++ bundle)%list in
  let critical_regressions := filter (has_severity "critical") all in
  let moderate_regressions := filter (has_severity "moderate") all in
  let summary :=
    "Found " ++ nat_to_string (List.length all) ++ " performance regressions" in
  let summary :=
    match critical_regressions with
    | [] => summary
    | _ => summary ++ " (" ++ nat_to_string (List.length critical_regressions)
             ++ " critical)"
    end in
  Ok (mkReport summary all critical_regressions moderate_regressions
        (generate_recommendations all) (threshold self) now).

(** ** Loading, saving and [main]

    The file system is an input of the model: a file that cannot be read
    or parsed is [None]; the files found by each [glob] come in the order
    [glob] returned them. *)

Record files : Type := mkFiles {
  baseline_file : option json;
  lighthouse_files : list (option json);
  load_test_files : list (option json);
  benchmark_files : list (option json);
  bundle_files : list (option json);
  output_writable : bool
}.

Definition load_baseline (self : analyzer) (f : option json) : analyzer * bool :=
  match f with
  | Some data =>
      (mkAnalyzer (threshold self) data (current_data self)
         (regressions self) (improvements self), true)
  | None => (self, false)
  end.

(** [for file in files: data.append(json.load(f))] *)
Fixpoint read_all (l : list (option json)) : option (list json) :=
  match l with
  | [] => Some []
  | None :: _ => None
  | Some d :: rest =>
      match read_all rest with
      | Some ds => Some (d :: ds)
      | None => None
      end
  end.

(** [for file in files: data = json.load(f); break], default [{}]. *)
Definition read_first (l : list (option json)) : option json :=
  match l with
  | [] => Some (JObj [])
  | f :: _ => f
  end.

Definition load_current_data (self : analyzer) (fs : files) (now : string)
  : analyzer * bool :=
  match read_all (lighthouse_files fs) with
  | None => (self, false)
  | Some lighthouse_data =>
      match read_all (load_test_files fs) with
      | None => (self, false)
      | Some load_test_data =>
          match read_first (benchmark_files fs) with
          | None => (self, false)
          | Some benchmark_data =>
              match read_first (bundle_files fs) with
              | None => (self, false)
              | Some bundle_data =>
                  (mkAnalyzer (threshold self) (baseline_data self)
                     (JObj [("lighthouse", JArr lighthouse_data);
                            ("loadTests", JArr load_test_data);
                            ("benchmarks", benchmark_data);
                            ("bundle", bundle_data);
                            ("timestamp", JStr now)])
                     (regressions self) (improvements self), true)
              end
          end
      end
  end.

Definition save_report (fs : files) (rep : report) : bool := output_writable fs.

(** What a run of [main] leaves behind: the exit status of the process
    (the value [main] returns, or 1 when an exception escapes it) and the
    report written to the output file, if any. *)
Definition main (th : Q) (fs : files) (now_load now_report : string)
  : Z * option report :=
  let analyzer := init th in
  let (analyzer, ok) := load_baseline analyzer (baseline_file fs) in
  if negb ok then (1, None)
  else
    let (analyzer, ok) := load_current_data analyzer fs now_load in
    if negb ok then (1, None)
    else
      match analyze_regressions analyzer now_report with
      | Raise _ => (1, None)
      | Ok rep =>
          if negb (save_report fs rep) then (1, None)
          else
            match criticalRegressions rep with
            | [] => (0, Some rep)
            | _ => (1, Some rep)
            end
      end.

(** ** Vocabulary of the specification *)

(** The page-audit records of a snapshot, in list order. *)
Definition lighthouse_items (data : json) : result (list json) :=
  l <- dict_get data "lighthouse" (JArr []) ;;
  py_iter l.

(** The record of a snapshot that takes part in the comparison under the
    device-page key [k]: the last one filed under [k]. *)
Definition lighthouse_record (data : json) (k : string) : option json :=
  match lighthouse_items data with
  | Ok items => find_last (has_key String.eqb lighthouse_key k) items
  | Raise _ => None
  end.

(** The load-test records of a snapshot, in list order. *)
Definition load_items (data : json) : result (list json) :=
  l <- dict_get data "loadTests" (JArr []) ;;
  py_iter l.


(** What the comparison of one baseline test result [bres] with the current
    result [cres] at the same index yields: nothing unless the baseline
    duration is positive and the relative increase exceeds [th], else one
    moderate record. *)
Definition pair_compared (th : Q) (bres cres : json) (o : list regression) : Prop :=
  exists bt b,
    dict_get bres "duration" (JInt 0) = Ok bt /\ as_num bt = Ok b /\
    (~ (0 < b)%Q -> o = []) /\
    ((0 < b)%Q ->
     exists ct c,
       dict_get cres "duration" (JInt 0) = Ok ct /\ as_num ct = Ok c /\
       (o <> [] <-> (th < (c - b) / b)%Q) /\
       forall r, In r o ->
         o = [r] /\ r_type r = "benchmark" /\ r_baseline r = bt /\
         r_current r = ct /\ r_change r = ((c - b) / b)%Q /\
         r_severity r = "moderate").


(** The recommendations as the specification words them: one message per
    metric family that has a regression, in the order bundle, page audit,
    load test, benchmark; then the critical warning if some regression is
    critical; the positive message alone for an empty list. *)
Definition family_message (family msg : string) (regs : list regression)
  : list string :=
  if existsb (has_type family) regs then [msg] else [].

Definition recommendations_spec (regs : list regression) : list string :=
  match regs with
  | [] => [msg_none]
  | _ =>
      (family_message "bundle" msg_bundle regs
       ++ family_message "lighthouse" msg_lighthouse regs
       ++ family_message "load_test" msg_load regs
       ++ family_message "benchmark" msg_benchmark regs
       ++ (if existsb (has_severity "critical") regs then [msg_critical] else []))%list
  end.

(** The metric families a regression record can belong to. *)
Definition families : list string :=
  ["lighthouse"; "load_test"; "benchmark"; "bundle"].

(** Two reports agree on everything but the time stamp and the summary
    line: regressions, both severity classes and recommendations. *)
Definition same_findings (r1 r2 : report) : Prop :=
  all_regressions r1 = all_regressions r2 /\
  criticalRegressions r1 = criticalRegressions r2 /\
  moderateRegressions r1 = moderateRegressions r2 /\
  recommendations r1 = recommendations r2.

(** Two analyses end the same way: the same exception, or reports with the
    same findings. *)
Definition same_outcome (o1 o2 : result report) : Prop :=
  match o1, o2 with
  | Ok r1, Ok r2 => same_findings r1 r2
  | Raise e1, Raise e2 => e1 = e2
  | _, _ => False
  end.

(** Two runs of [main] leave the same exit status and, if a report is
    written, reports with the same findings. *)
Definition same_run (m1 m2 : Z * option report) : Prop :=
  fst m1 = fst m2 /\
  match snd m1, snd m2 with
  | Some r1, Some r2 => same_findings r1 r2
  | None, None => True
  | _, _ => False
  end.

(** ** A worked example

    A baseline file and the files of a current run.  The baseline holds a
    duplicate [desktop-home] page audit and an audit without device and
    page; the current [desktop-home] audit has no [seo] score. *)

Definition demo_home_stale : list (string * json) :=
  [("device", JStr "desktop"); ("page", JStr "home");
   ("performance", JInt 50); ("seo", JInt 90)].

Definition demo_home_baseline : list (string * json) :=
  [("device", JStr "desktop"); ("page", JStr "home");
   ("performance", JInt 90); ("accessibility", JInt 100); ("seo", JInt 95)].

Definition demo_home_current : list (string * json) :=
  [("device", JStr "desktop"); ("page", JStr "home");
   ("performance", JInt 60); ("accessibility", JInt 95)].

Definition demo_load (avg : Z) (rate : Q) : json :=
  JObj [("scenario", JStr "smoke");
        ("metrics", JObj [("http_req_duration", JObj [("avg", JInt avg)]);
                          ("http_req_failed", JObj [("rate", JFloat rate)])])].

Definition demo_bundle (size : Z) : json := JObj [("totalSize", JInt size)].

Definition demo_baseline : json :=
  JObj [("lighthouse",
         JArr [JObj demo_home_stale; JObj demo_home_baseline;
               JObj [("performance", JInt 80)]]);
        ("loadTests", JArr [demo_load 100 (1 # 100)]);
        ("benchmarks",
         JObj [("cpu",
                JObj [("testResults",
                       JArr [JObj [("title", JStr "fib"); ("duration", JInt 100)];
                             JObj [("duration", JInt 10)];
                             JObj [("duration", JInt 5)]])])]);
        ("bundle", demo_bundle 1000)].

Definition demo_files : files :=
  mkFiles (Some demo_baseline)
    [Some (JObj demo_home_current); Some (JObj [("performance", JInt 70)])]
    [Some (demo_load 120 (3 # 100))]
    [Some (JObj [("cpu",
                  JObj [("testResults",
                         JArr [JObj [("title", JStr "fib"); ("duration", JInt 125)];
                               JObj [("duration", JInt 10)]])])])]
    [Some (demo_bundle 1150)]
    true.

Definition demo_clock : string := "2024-01-01T00:00:00".

(** The analyzer [main] builds from these files with threshold 0.1. *)
Definition demo : analyzer :=
  fst (load_current_data
         (fst (load_baseline (init (1 # 10)) (baseline_file demo_files)))
         demo_files demo_clock).

Definition demo_lighthouse : list regression :=
  match analyze_lighthouse_regression demo with Ok l => l | Raise _ => [] end.

Definition demo_load_tests : list regression :=
  match analyze_load_test_regression demo with Ok l => l | Raise _ => [] end.


Definition demo_report : report :=
  match analyze_regressions demo demo_clock with
  | Ok rep => rep
  | Raise _ => mkReport EmptyString [] [] [] [] 0 EmptyString
  end.

(** A baseline with one page audit and a current run whose audit of the
    same page has no [performance] score. *)
Definition absent_score_input : analyzer :=
  mkAnalyzer (1 # 10)
    (JObj [("lighthouse",
            JArr [JObj [("device", JStr "desktop"); ("page", JStr "home");
                        ("performance", JInt 90)]])])
    (JObj [("lighthouse",
            JArr [JObj [("device", JStr "desktop"); ("page", JStr "home")]]);
           ("loadTests", JArr []);
           ("benchmarks", JObj []);
           ("bundle", JObj []);
           ("timestamp", JStr demo_clock)])
    [] [].


(** The keys of a snapshot that the comparators read. *)
Definition family_keys : list string :=
  ["lighthouse"; "loadTests"; "benchmarks"; "bundle"].



(** ** Further inputs *)

(** The baseline of the worked example compared with itself. *)
Definition demo_self_compare : analyzer :=
  mkAnalyzer (1 # 10) demo_baseline demo_baseline [] [].

(** The worked example's baseline and a current run without any file. *)
Definition demo_empty_files : files :=
  mkFiles (Some demo_baseline) [] [] [] [] true.

(** A baseline file that holds an array. *)
Definition array_baseline_files : files :=
  mkFiles (Some (JArr [])) [] [] [] [] true.


(** A baseline load test whose scenario is a list. *)
Definition list_scenario_input : analyzer :=
  mkAnalyzer (1 # 10)
    (JObj [("loadTests", JArr [JObj [("scenario", JArr [JStr "smoke"])]])])
    (JObj [])
    [] [].

(** * Properties *)

(** ** The error monad and loops *)

Lemma bind_Ok {A B : Type} (m : result A) (k : A -> result B) (b : B) :
  bind m k = Ok b -> exists a, m = Ok a /\ k a = Ok b.
Proof.
  destruct m as [a|e]; simpl; intros H; [exists a; auto | discriminate].
Qed.

(** Inverts a chain of binds that ends in [Ok]. *)
Ltac invert_bind H :=
  repeat match type of H with
    | bind _ _ = Ok _ =>
        let a := fresh "x" in
        let E := fresh "E" in
        apply bind_Ok in H; destruct H as (a & E & H)
    end.

Section FlatMapM.
Context {A B : Type} (f : A -> result (list B)).

Lemma flat_mapM_In (l : list A) (rs : list B) :
  flat_mapM f l = Ok rs ->
  forall r, In r rs <-> exists a ra, In a l /\ f a = Ok ra /\ In r ra.
Proof.
  revert rs; induction l as [|a l IH]; simpl; intros rs H r.
  - injection H as <-. split; [intros [] | intros (a & ra & [] & _)].
  - invert_bind H. injection H as <-.
    rewrite in_app_iff, (IH _ E0). split.
    + intros [Hr | (a' & ra & Ha & Hf & Hr)].
      * exists a, x; auto.
      * exists a', ra; auto.
    + intros (a' & ra & [<- | Ha] & Hf & Hr).
      * left. rewrite E in Hf. injection Hf as <-. exact Hr.
      * right. exists a', ra; auto.
Qed.

Lemma flat_mapM_each (l : list A) (rs : list B) :
  flat_mapM f l = Ok rs ->
  forall a, In a l -> exists ra, f a = Ok ra.
Proof.
  revert rs; induction l as [|a l IH]; simpl; intros rs H a' Ha; [contradiction|].
  invert_bind H. destruct Ha as [<- | Ha]; eauto.
Qed.


End FlatMapM.

(** ** Rational comparisons *)

Lemma Qgtb_true (x y : Q) : Qgtb x y = true <-> (y < x)%Q.
Proof.
  unfold Qgtb. rewrite negb_true_iff. split.
  - intros H. apply Qnot_le_lt. intros Hle.
    apply Qle_bool_iff in Hle. congruence.
  - intros H. destruct (Qle_bool x y) eqn:E; [|reflexivity].
    apply Qle_bool_iff in E. exfalso. exact (Qlt_not_le _ _ H E).
Qed.

Lemma Qgtb_false (x y : Q) : Qgtb x y = false <-> ~ (y < x)%Q.
Proof.
  rewrite <- Qgtb_true. destruct (Qgtb x y); split; congruence.
Qed.

(** ** Dictionaries and grouping *)

Section PyDictFacts.
Context {K V : Type} (keq : K -> K -> bool).
Hypothesis keq_sym : forall a b, keq a b = keq b a.
Hypothesis keq_trans : forall a b c, keq a b = true -> keq b c = true -> keq a c = true.

Lemma keq_false_l (a b c : K) : keq a b = true -> keq a c = false -> keq b c = false.
Proof.
  intros Hab Hac. destruct (keq b c) eqn:E; [|reflexivity].
  rewrite (keq_trans _ _ _ Hab E) in Hac. discriminate.
Qed.

Lemma dict_lookup_set (k k' : K) (v : V) (d : list (K * V)) :
  dict_lookup keq k (dict_set keq k' v d)
  = if keq k' k then Some v else dict_lookup keq k d.
Proof.
  induction d as [|[k0 v0] d IH]; simpl; [reflexivity|].
  destruct (keq k0 k') eqn:E0; simpl.
  - destruct (keq k0 k) eqn:E1.
    + rewrite keq_sym in E0. rewrite (keq_trans _ _ _ E0 E1). reflexivity.
    + rewrite (keq_false_l _ _ _ E0 E1). reflexivity.
  - destruct (keq k0 k) eqn:E1; [|exact IH].
    destruct (keq k' k) eqn:E2; [|reflexivity].
    rewrite keq_sym in E2. rewrite (keq_trans _ _ _ E1 E2) in E0. discriminate.
Qed.


Lemma dict_lookup_In (k : K) (v : V) (d : list (K * V)) :
  dict_lookup keq k d = Some v -> exists k0, In (k0, v) d /\ keq k0 k = true.
Proof.
  induction d as [|[k0 v0] d IH]; simpl; [discriminate|].
  destruct (keq k0 k) eqn:E.
  - intros [= <-]. exists k0. auto.
  - intros H. destruct (IH H) as (k1 & Hin & Hk). exists k1. auto.
Qed.

Lemma dict_set_In (k k' : K) (v v' : V) (d : list (K * V)) :
  In (k', v') (dict_set keq k v d) ->
  (exists v0, In (k', v0) d) \/ k' = k.
Proof.
  induction d as [|[k0 v0] d IH]; simpl.
  - intros [[= <- <-] | []]. right; reflexivity.
  - destruct (keq k0 k); simpl.
    + intros [[= <- <-] | H]; left; eauto.
    + intros [[= <- <-] | H]; [left; eauto|].
      destruct (IH H) as [(v1 & H1) | ->]; [left; eauto | right; reflexivity].
Qed.

Lemma dict_set_wf (k : K) (v : V) (d : list (K * V)) :
  dict_wf keq d -> dict_wf keq (dict_set keq k v d).
Proof.
  induction d as [|[k0 v0] d IH]; simpl.
  - intros _. split; [intros ? ? [] | exact I].
  - intros [Hk0 Hd]. destruct (keq k0 k) eqn:E; simpl.
    + split; assumption.
    + split; [|exact (IH Hd)].
      intros k' v' H. destruct (dict_set_In _ _ _ _ _ H) as [(v1 & H1) | ->].
      * exact (Hk0 _ _ H1).
      * exact E.
Qed.

Lemma dict_wf_lookup (k : K) (v : V) (d : list (K * V)) :
  dict_wf keq d -> keq k k = true -> In (k, v) d -> dict_lookup keq k d = Some v.
Proof.
  intros Hwf Hrefl. induction d as [|[k0 v0] d IH]; simpl; [intros []|].
  destruct Hwf as [Hk0 Hd]. intros [[= -> ->] | H].
  - rewrite Hrefl. reflexivity.
  - rewrite (Hk0 _ _ H). exact (IH Hd H).
Qed.

Section Grouping.
Variable key : V -> result K.

Lemma group_items_lookup (items : list V) (acc g : list (K * V)) (k : K) :
  group_items keq key items acc = Ok g ->
  dict_lookup keq k g
  = match find_last (has_key keq key k) items with
    | Some x => Some x
    | None => dict_lookup keq k acc
    end.
Proof.
  revert acc; induction items as [|item items IH]; simpl; intros acc H.
  - injection H as <-. reflexivity.
  - invert_bind H. rewrite (IH _ H).
    destruct (find_last (has_key keq key k) items); [reflexivity|].
    rewrite dict_lookup_set. unfold has_key. rewrite E.
    destruct (keq x k); reflexivity.
Qed.

Lemma group_items_wf (items : list V) (acc g : list (K * V)) :
  group_items keq key items acc = Ok g -> dict_wf keq acc -> dict_wf keq g.
Proof.
  revert acc; induction items as [|item items IH]; simpl; intros acc H Hacc.
  - injection H as <-. exact Hacc.
  - invert_bind H. exact (IH _ H (dict_set_wf _ _ _ Hacc)).
Qed.

Lemma group_items_keys (items : list V) (acc g : list (K * V)) (k : K) (v : V) :
  group_items keq key items acc = Ok g -> In (k, v) g ->
  (exists v0, In (k, v0) acc) \/ (exists item, In item items /\ key item = Ok k).
Proof.
  revert acc; induction items as [|item items IH]; simpl; intros acc H Hin.
  - injection H as <-. left; eauto.
  - invert_bind H. destruct (IH _ H Hin) as [(v0 & H0) | (it & Hit & Hk)].
    + destruct (dict_set_In _ _ _ _ _ H0) as [Hacc | ->]; [left; exact Hacc|].
      right. exists item. auto.
    + right. exists it. auto.
Qed.


End Grouping.
End PyDictFacts.

(** ** Keys: strings and hashable JSON values *)

Lemma string_eqb_trans (a b c : string) :
  String.eqb a b = true -> String.eqb b c = true -> String.eqb a c = true.
Proof.
  rewrite !String.eqb_eq. congruence.
Qed.



Lemma key_eqb_refl (a : json) : hashable a = true -> key_eqb a a = true.
Proof.
  destruct a; simpl; try discriminate; intros _;
    try apply Qeq_bool_refl; try apply String.eqb_refl; reflexivity.
Qed.


Lemma scenario_key_hashable (item k : json) :
  scenario_key item = Ok k -> hashable k = true.
Proof.
  unfold scenario_key. intros H. invert_bind H.
  destruct (hashable x) eqn:Hx; [|discriminate]. injection H as <-. exact Hx.
Qed.

(** ** Text *)

Lemma list_ascii_app (s t : string) :
  list_ascii_of_string (s ++ t)
  = (list_ascii_of_string s ++ list_ascii_of_string t)%list.
Proof.
  induction s as [|c s IH]; simpl; [reflexivity | rewrite IH; reflexivity].
Qed.

Lemma list_ascii_inj (s t : string) :
  list_ascii_of_string s = list_ascii_of_string t -> s = t.
Proof.
  intros H. rewrite <- (string_of_list_ascii_of_string s),
    <- (string_of_list_ascii_of_string t), H. reflexivity.
Qed.

Lemma append_inv_tail (s t u : string) : s ++ u = t ++ u -> s = t.
Proof.
  intros H. apply list_ascii_inj. apply (f_equal list_ascii_of_string) in H.
  rewrite !list_ascii_app in H. exact (app_inv_tail _ _ _ H).
Qed.

(** Two strings with different last characters are different, whatever
    precedes them. *)
Lemma append_last_neq (s t u v : string) (a b : ascii) :
  a <> b -> s ++ u ++ String a EmptyString <> t ++ v ++ String b EmptyString.
Proof.
  intros Hab H. apply (f_equal list_ascii_of_string) in H.
  rewrite !list_ascii_app in H. simpl in H. rewrite !app_assoc in H.
  apply app_inj_tail in H. destruct H as [_ H]. exact (Hab H).
Qed.

(** The metric name [key-metric] determines both the key and the score
    category. *)
Lemma lighthouse_metric_name_inj (k1 k2 m1 m2 : string) :
  In m1 lighthouse_metrics -> In m2 lighthouse_metrics ->
  k1 ++ "-" ++ m1 = k2 ++ "-" ++ m2 -> k1 = k2 /\ m1 = m2.
Proof.
  intros H1 H2 H.
  assert (Hm : m1 = m2).
  { simpl in H1, H2.
    destruct H1 as [<- | [<- | [<- | [<- | []]]]];
      destruct H2 as [<- | [<- | [<- | [<- | []]]]]; try reflexivity; exfalso;
      match type of H with
      | _ ++ "-" ++ ?x = _ ++ "-" ++ ?y =>
          revert H;
          match x with
          | "performance" => change ("-" ++ x) with ("-performanc" ++ "e")
          | "accessibility" => change ("-" ++ x) with ("-accessibilit" ++ "y")
          | "bestPractices" => change ("-" ++ x) with ("-bestPractice" ++ "s")
          | "seo" => change ("-" ++ x) with ("-se" ++ "o")
          end;
          match y with
          | "performance" => change ("-" ++ y) with ("-performanc" ++ "e")
          | "accessibility" => change ("-" ++ y) with ("-accessibilit" ++ "y")
          | "bestPractices" => change ("-" ++ y) with ("-bestPractice" ++ "s")
          | "seo" => change ("-" ++ y) with ("-se" ++ "o")
          end;
          apply append_last_neq; discriminate
      end. }
  subst m2. split; [|reflexivity]. exact (append_inv_tail _ _ _ H).
Qed.

(** ** Page-audit comparator *)

Lemma lighthouse_metric_cases (th : Q) (k : string) (bitem citem : json)
    (m : string) (rs : list regression) :
  lighthouse_metric th k bitem citem m = Ok rs ->
  exists bv cv b,
    dict_get bitem m (JInt 0) = Ok bv /\
    dict_get citem m (JInt 0) = Ok cv /\
    as_num bv = Ok b /\
    ((~ (0 < b)%Q /\ rs = []) \/
     ((0 < b)%Q /\
      exists c, as_num cv = Ok c /\
        (((th < (b - c) / b)%Q /\
          rs = [lighthouse_regression k m bv cv ((b - c) / b)%Q]) \/
         (~ (th < (b - c) / b)%Q /\ rs = [])))).
Proof.
  unfold lighthouse_metric. intros H. invert_bind H.
  exists x, x0, x1. repeat split; try assumption.
  destruct (Qgtb x1 0) eqn:Hb.
  - right. apply Qgtb_true in Hb. split; [exact Hb|].
    invert_bind H. exists x2. split; [assumption|].
    destruct (Qgtb ((x1 - x2) / x1) th) eqn:Hc; injection H as <-.
    + left. apply Qgtb_true in Hc. auto.
    + right. apply Qgtb_false in Hc. auto.
  - left. apply Qgtb_false in Hb. injection H as <-. auto.
Qed.

Lemma lighthouse_items_Ok (data l : json) (items : list json) :
  dict_get data "lighthouse" (JArr []) = Ok l -> py_iter l = Ok items ->
  lighthouse_items data = Ok items.
Proof.
  intros H1 H2. unfold lighthouse_items. rewrite H1. simpl. exact H2.
Qed.

(** The regressions of the comparator are exactly those of the score
    categories of the records compared under a common key. *)
Lemma analyze_lighthouse_In (self : analyzer) (regs : list regression) :
  analyze_lighthouse_regression self = Ok regs ->
  forall r, In r regs <->
    exists k bitem citem m rs,
      lighthouse_record (baseline_data self) k = Some bitem /\
      lighthouse_record (current_data self) k = Some citem /\
      In m lighthouse_metrics /\
      lighthouse_metric (threshold self) k bitem citem m = Ok rs /\
      In r rs.
Proof.
  unfold analyze_lighthouse_regression. intros H r. invert_bind H.
  unfold lighthouse_record.
  rewrite (lighthouse_items_Ok _ _ _ E E1), (lighthouse_items_Ok _ _ _ E0 E3).
  unfold group_lighthouse in E2, E4.
  assert (Hb : forall k, dict_lookup String.eqb k x2
                         = find_last (has_key String.eqb lighthouse_key k) x1).
  { intros k. rewrite (group_items_lookup _ String.eqb_sym string_eqb_trans _ _ _ _ k E2).
    destruct (find_last _ x1); reflexivity. }
  assert (Hc : forall k, dict_lookup String.eqb k x4
                         = find_last (has_key String.eqb lighthouse_key k) x3).
  { intros k. rewrite (group_items_lookup _ String.eqb_sym string_eqb_trans _ _ _ _ k E4).
    destruct (find_last _ x3); reflexivity. }
  assert (Hwf : dict_wf String.eqb x2).
  { exact (group_items_wf _ _ _ _ _ E2 I). }
  rewrite (flat_mapM_In _ _ _ H). split.
  - intros ([k bitem] & ra & Hin & He & Hr). unfold lighthouse_entry in He.
    cbn [fst snd] in He. destruct (dict_lookup String.eqb k x4) as [citem|] eqn:Ec.
    + rewrite (flat_mapM_In _ _ _ He) in Hr. destruct Hr as (m & rs & Hm & Hrs & Hr).
      exists k, bitem, citem, m, rs. repeat split; try assumption.
      * rewrite <- Hb. apply dict_wf_lookup; auto. apply String.eqb_refl.
      * rewrite <- Hc. exact Ec.
    + injection He as <-. destruct Hr.
  - intros (k & bitem & citem & m & rs & Hkb & Hkc & Hm & Hrs & Hr).
    rewrite <- Hb in Hkb. rewrite <- Hc in Hkc.
    destruct (dict_lookup_In _ _ _ _ Hkb) as (k0 & Hin & Hk0).
    apply String.eqb_eq in Hk0. subst k0.
    destruct (flat_mapM_each _ _ _ H _ Hin) as (ra & Hra).
    exists (k, bitem), ra. repeat split; try assumption.
    unfold lighthouse_entry in Hra. cbn [fst snd] in Hra. rewrite Hkc in Hra.
    rewrite (flat_mapM_In _ _ _ Hra). exists m, rs. auto.
Qed.

Lemma lighthouse_regression_severity (k m : string) (bv cv : json) (ch : Q) :
  let r := lighthouse_regression k m bv cv ch in
  (r_severity r = "critical" <-> (2 # 10 < ch)%Q) /\
  (r_severity r = "moderate" <-> ~ (2 # 10 < ch)%Q).
Proof.
  simpl. destruct (Qgtb ch (2 # 10)) eqn:E.
  - apply Qgtb_true in E. repeat split; auto; try discriminate. intros H; contradiction.
  - apply Qgtb_false in E. repeat split; auto; try discriminate. intros H; contradiction.
Qed.

(** A record named [k-m] comes from the records compared under [k]. *)
Lemma lighthouse_emitted_inv (self : analyzer) (regs : list regression)
    (k m : string) (r : regression) :
  analyze_lighthouse_regression self = Ok regs ->
  In m lighthouse_metrics ->
  In r regs -> r_metric r = k ++ "-" ++ m ->
  exists bitem citem bv cv b c,
    lighthouse_record (baseline_data self) k = Some bitem /\
    lighthouse_record (current_data self) k = Some citem /\
    dict_get bitem m (JInt 0) = Ok bv /\ as_num bv = Ok b /\
    dict_get citem m (JInt 0) = Ok cv /\ as_num cv = Ok c /\
    (0 < b)%Q /\ (threshold self < (b - c) / b)%Q /\
    r = lighthouse_regression k m bv cv ((b - c) / b)%Q.
Proof.
  intros Han Hm Hr Hname.
  apply (analyze_lighthouse_In _ _ Han) in Hr.
  destruct Hr as (k' & bitem & citem & m' & rs & Hb & Hc & Hm' & Hrs & Hr).
  destruct (lighthouse_metric_cases _ _ _ _ _ _ Hrs)
    as (bv & cv & b & Hbv & Hcv & Hnb & [[_ ->] | [Hpos (c & Hnc & [[Hth ->] | [_ ->]])]]);
    try contradiction.
  destruct Hr as [<- | []]. simpl in Hname.
  destruct (lighthouse_metric_name_inj _ _ _ _ Hm' Hm Hname) as [-> ->].
  exists bitem, citem, bv, cv, b, c. repeat split; assumption.
Qed.

Lemma lighthouse_metric_emits (th : Q) (k m : string) (bitem citem bv cv : json)
    (b c : Q) :
  dict_get bitem m (JInt 0) = Ok bv -> as_num bv = Ok b ->
  dict_get citem m (JInt 0) = Ok cv -> as_num cv = Ok c ->
  (0 < b)%Q -> (th < (b - c) / b)%Q ->
  lighthouse_metric th k bitem citem m
  = Ok [lighthouse_regression k m bv cv ((b - c) / b)%Q].
Proof.
  intros H3 H4 H5 H6 H7 H8.
  unfold lighthouse_metric. rewrite H3, H5. simpl. rewrite H4. simpl.
  apply Qgtb_true in H7. rewrite H7, H6. simpl.
  apply Qgtb_true in H8. rewrite H8. reflexivity.
Qed.

Lemma lighthouse_emitted (self : analyzer) (regs : list regression)
    (k m : string) (bitem citem bv cv : json) (b c : Q) :
  analyze_lighthouse_regression self = Ok regs ->
  In m lighthouse_metrics ->
  lighthouse_record (baseline_data self) k = Some bitem ->
  lighthouse_record (current_data self) k = Some citem ->
  dict_get bitem m (JInt 0) = Ok bv -> as_num bv = Ok b ->
  dict_get citem m (JInt 0) = Ok cv -> as_num cv = Ok c ->
  (0 < b)%Q -> (threshold self < (b - c) / b)%Q ->
  In (lighthouse_regression k m bv cv ((b - c) / b)%Q) regs.
Proof.
  intros Han Hm H1 H2 H3 H4 H5 H6 H7 H8.
  apply (analyze_lighthouse_In _ _ Han).
  exists k, bitem, citem, m, [lighthouse_regression k m bv cv ((b - c) / b)%Q].
  repeat split; try assumption; [|left; reflexivity].
  apply lighthouse_metric_emits; assumption.
Qed.


(** ** Load-test comparator *)


Lemma analyze_load_inv (self : analyzer) (regs : list regression) :
  analyze_load_test_regression self = Ok regs ->
  exists bitems citems bg cg,
    load_items (baseline_data self) = Ok bitems /\
    load_items (current_data self) = Ok citems /\
    group_load bitems = Ok bg /\
    group_load citems = Ok cg /\
    flat_mapM (load_entry (threshold self) cg) bg = Ok regs.
Proof.
  unfold analyze_load_test_regression, load_items. intros H. invert_bind H.
  exists x1, x3, x2, x4. rewrite E, E0. simpl. auto.
Qed.


Lemma group_load_entry (items : list json) (g : list (json * json)) (s v : json) :
  group_load items = Ok g -> In (s, v) g ->
  hashable s = true /\ dict_lookup key_eqb s g = Some v.
Proof.
  intros H Hin. unfold group_load in H.
  assert (Hs : hashable s = true).
  { destruct (group_items_keys _ _ _ _ _ _ _ H Hin) as [(v0 & []) | (item & _ & Hk)].
    exact (scenario_key_hashable _ _ Hk). }
  split; [exact Hs|].
  apply dict_wf_lookup; auto.
  - exact (group_items_wf _ _ _ _ _ H I).
  - exact (key_eqb_refl _ Hs).
Qed.

Lemma error_rate_check_cases (s bitem citem : json) (er : list regression) :
  error_rate_check s bitem citem = Ok er ->
  exists bv cv b c,
    load_metric bitem "http_req_failed" "rate" = Ok bv /\ as_num bv = Ok b /\
    load_metric citem "http_req_failed" "rate" = Ok cv /\ as_num cv = Ok c /\
    (((1 # 100 < c - b)%Q /\ er = [error_rate_regression s bv cv (c - b)%Q]) \/
     (~ (1 # 100 < c - b)%Q /\ er = [])).
Proof.
  unfold error_rate_check. intros H. invert_bind H.
  exists x, x0, x2, x1. repeat split; try assumption.
  destruct (Qgtb (x1 - x2) (1 # 100)) eqn:Hc; injection H as <-.
  - left. apply Qgtb_true in Hc. auto.
  - right. apply Qgtb_false in Hc. auto.
Qed.

Lemma response_time_check_records (th : Q) (s bitem citem : json)
    (rt : list regression) :
  response_time_check th s bitem citem = Ok rt ->
  forall r, In r rt -> exists bv cv ch, r = response_time_regression s bv cv ch.
Proof.
  unfold response_time_check. intros H r Hr. invert_bind H.
  destruct (Qgtb x1 0); [|injection H as <-; destruct Hr].
  invert_bind H.
  destruct (Qgtb ((x2 - x1) / x1) th); injection H as <-; [|destruct Hr].
  destruct Hr as [<- | []]. eauto.
Qed.






(** ** Benchmark comparator *)

Lemma enumerate_from_nth {A : Type} (l : list A) (s i : nat) :
  nth_error (combine (seq s (List.length l)) l) i
  = option_map (fun x => ((s + i)%nat, x)) (nth_error l i).
Proof.
  revert s i; induction l as [|a l IH]; intros s i; simpl.
  - destruct i; reflexivity.
  - destruct i as [|i]; simpl.
    + rewrite Nat.add_0_r. reflexivity.
    + rewrite IH. rewrite Nat.add_succ_r. reflexivity.
Qed.

Lemma enumerate_nth {A : Type} (l : list A) (i : nat) :
  nth_error (enumerate l) i = option_map (fun x => (i, x)) (nth_error l i).
Proof.
  unfold enumerate. rewrite enumerate_from_nth. reflexivity.
Qed.



Lemma benchmark_result_array (th : Q) (t : string) (cl : list json) (i : nat)
    (bres : json) (o : list regression) :
  benchmark_result th t (JArr cl) (i, bres) = Ok o ->
  match nth_error cl i with
  | None => o = []
  | Some cres => pair_compared th bres cres o
  end.
Proof.
  unfold benchmark_result. cbn [fst snd py_len py_index bind]. intros H.
  destruct (Nat.leb_spec (List.length cl) i) as [Hle | Hlt].
  - injection H as <-. apply nth_error_None in Hle. rewrite Hle. reflexivity.
  - destruct (nth_error cl i) as [cres|] eqn:En;
      [|apply nth_error_None in En; lia].
    cbn [bind] in H. invert_bind H. exists x, x1. repeat split; try assumption.
    + intros Hn. apply Qgtb_false in Hn. rewrite Hn in H. injection H as <-. reflexivity.
    + intros Hp. apply Qgtb_true in Hp. rewrite Hp in H. invert_bind H.
      exists x0, x2. split; [assumption|]. split; [assumption|].
      destruct (Qgtb ((x2 - x1) / x1) th) eqn:Hc.
      * apply Qgtb_true in Hc. invert_bind H. injection H as <-. split.
        -- split; [intros _; exact Hc | discriminate].
        -- intros r [<- | []]. repeat split.
      * apply Qgtb_false in Hc. injection H as <-. split.
        -- split; [intros Ho; destruct (Ho eq_refl) | intros Hgt; destruct (Hc Hgt)].
        -- intros r [].
Qed.

Lemma benchmark_result_records (th : Q) (t : string) (cres : json)
    (ib : nat * json) (o : list regression) :
  benchmark_result th t cres ib = Ok o ->
  forall r, In r o -> r_type r = "benchmark" /\ r_severity r = "moderate".
Proof.
  unfold benchmark_result. intros H r Hr. invert_bind H.
  destruct (x <=? fst ib)%nat; [injection H as <-; destruct Hr|].
  invert_bind H. destruct (Qgtb x3 0); [|injection H as <-; destruct Hr].
  invert_bind H.
  destruct (Qgtb ((x4 - x3) / x3) th); [|injection H as <-; destruct Hr].
  invert_bind H. injection H as <-. destruct Hr as [<- | []]. auto.
Qed.

Lemma benchmark_type_records (th : Q) (bb cb : json) (t : string)
    (rs : list regression) :
  benchmark_type th bb cb t = Ok rs ->
  forall r, In r rs -> r_type r = "benchmark" /\ r_severity r = "moderate".
Proof.
  unfold benchmark_type. intros H r Hr. invert_bind H.
  destruct (negb (py_truthy x) || negb (py_truthy x0)); [injection H as <-; destruct Hr|].
  invert_bind H. apply (flat_mapM_In _ _ _ H) in Hr.
  destruct Hr as (ib & o & _ & Ho & Hr).
  exact (benchmark_result_records _ _ _ _ _ Ho _ Hr).
Qed.

Lemma analyze_benchmark_records (self : analyzer) (regs : list regression) :
  analyze_benchmark_regression self = Ok regs ->
  forall r, In r regs -> r_type r = "benchmark" /\ r_severity r = "moderate".
Proof.
  unfold analyze_benchmark_regression. intros H r Hr. invert_bind H.
  apply (flat_mapM_In _ _ _ H) in Hr. destruct Hr as (t & rs & _ & Hrs & Hr).
  exact (benchmark_type_records _ _ _ _ _ Hrs _ Hr).
Qed.


(** ** Bundle comparator *)

Lemma analyze_bundle_records (self : analyzer) (regs : list regression) :
  analyze_bundle_regression self = Ok regs ->
  forall r, In r regs -> r_type r = "bundle" /\ r_severity r = "moderate".
Proof.
  unfold analyze_bundle_regression. intros H r Hr. invert_bind H.
  destruct (negb (py_truthy x) || negb (py_truthy x0)); [injection H as <-; destruct Hr|].
  invert_bind H. destruct (Qgtb x3 0); [|injection H as <-; destruct Hr].
  invert_bind H.
  destruct (Qgtb ((x4 - x3) / x3) (threshold self)); [|injection H as <-; destruct Hr].
  invert_bind H. injection H as <-. destruct Hr as [<- | []]. auto.
Qed.

(** A dict that holds a value other than the default is not empty. *)
Lemma dict_get_truthy (obj : json) (key : string) (z z' : Z) :
  dict_get obj key (JInt z) = Ok (JInt z') -> z <> z' -> py_truthy obj = true.
Proof.
  destruct obj; simpl; try discriminate.
  destruct kvs; simpl; [|reflexivity]. intros [= ->] H. destruct (H eq_refl).
Qed.

(** C8. With a baseline bundle of [totalSize] 1000, a current bundle of
    [totalSize] 1150 and a threshold of 0.1, the bundle comparator emits
    exactly one regression: its change is 0.15, its severity moderate and
    its description contains [150 bytes]. *)
Theorem bundle_regression_1000_1150 (self : analyzer) (bb cb : json) :
  (threshold self == 1 # 10)%Q ->
  dict_get (baseline_data self) "bundle" (JObj []) = Ok bb ->
  dict_get (current_data self) "bundle" (JObj []) = Ok cb ->
  dict_get bb "totalSize" (JInt 0) = Ok (JInt 1000) ->
  dict_get cb "totalSize" (JInt 0) = Ok (JInt 1150) ->
  exists r,
    analyze_bundle_regression self = Ok [r] /\
    r_type r = "bundle" /\
    (r_change r == 15 # 100)%Q /\
    r_severity r = "moderate" /\
    exists pre post, r_description r = pre ++ "150 bytes" ++ post.
Proof.
  intros Hth Hb Hc Hbs Hcs.
  assert (Htb : py_truthy bb = true) by (apply (dict_get_truthy _ _ _ _ Hbs); discriminate).
  assert (Htc : py_truthy cb = true) by (apply (dict_get_truthy _ _ _ _ Hcs); discriminate).
  assert (Hgt : Qgtb ((inject_Z 1150 - inject_Z 1000) / inject_Z 1000) (threshold self) = true).
  { apply Qgtb_true. rewrite Hth. reflexivity. }
  unfold analyze_bundle_regression.
  rewrite Hb, Hc. cbn [bind]. rewrite Htb, Htc. cbn [negb orb].
  rewrite Hbs, Hcs. cbn [bind as_num].
  change (Qgtb (inject_Z 1000) 0) with true. cbv iota. rewrite Hgt.
  eexists. split; [reflexivity|]. repeat split.
  exists "Bundle size increased by 15.0% (", ")". reflexivity.
Qed.

(** ** Families and severities of the records emitted *)

Lemma analyze_lighthouse_records (self : analyzer) (regs : list regression) :
  analyze_lighthouse_regression self = Ok regs ->
  forall r, In r regs ->
    r_type r = "lighthouse" /\
    (r_severity r = "critical" \/ r_severity r = "moderate").
Proof.
  intros H r Hr. apply (analyze_lighthouse_In _ _ H) in Hr.
  destruct Hr as (k & bitem & citem & m & rs & _ & _ & _ & Hrs & Hr).
  destruct (lighthouse_metric_cases _ _ _ _ _ _ Hrs)
    as (bv & cv & b & _ & _ & _ & [[_ ->] | [_ (c & _ & [[_ ->] | [_ ->]])]]);
    try contradiction.
  destruct Hr as [<- | []]. split; [reflexivity|]. simpl.
  destruct (Qgtb ((b - c) / b) (2 # 10)); auto.
Qed.

Lemma analyze_load_records (self : analyzer) (regs : list regression) :
  analyze_load_test_regression self = Ok regs ->
  forall r, In r regs ->
    r_type r = "load_test" /\
    (r_severity r = "critical" \/ r_severity r = "moderate").
Proof.
  intros H r Hr.
  destruct (analyze_load_inv _ _ H) as (bitems & citems & bg & cg & _ & _ & _ & _ & Hfm).
  apply (flat_mapM_In _ _ _ Hfm) in Hr. destruct Hr as (kv & ra & _ & Hra & Hr).
  unfold load_entry in Hra. destruct (dict_lookup key_eqb (fst kv) cg) as [ci|];
    [|injection Hra as <-; destruct Hr].
  invert_bind Hra. injection Hra as <-. apply in_app_iff in Hr. destruct Hr as [Hr | Hr].
  - destruct (response_time_check_records _ _ _ _ _ E _ Hr) as (bv & cv & ch & ->).
    split; [reflexivity|]. simpl. destruct (Qgtb ch (5 # 10)); auto.
  - destruct (error_rate_check_cases _ _ _ _ E0)
      as (bv & cv & b & c & _ & _ & _ & _ & [[_ ->] | [_ ->]]); [|destruct Hr].
    destruct Hr as [<- | []]. auto.
Qed.

Lemma analyze_regressions_inv (self : analyzer) (now : string) (rep : report) :
  analyze_regressions self now = Ok rep ->
  exists lighthouse load bench bundle,
    analyze_lighthouse_regression self = Ok lighthouse /\
    analyze_load_test_regression self = Ok load /\
    analyze_benchmark_regression self = Ok bench /\
    analyze_bundle_regression self = Ok bundle /\
    all_regressions rep = (lighthouse ++ load ++ bench ++ bundle)%list /\
    criticalRegressions rep = filter (has_severity "critical") (all_regressions rep) /\
    moderateRegressions rep = filter (has_severity "moderate") (all_regressions rep) /\
    recommendations rep = generate_recommendations (all_regressions rep) /\
    rep_threshold rep = threshold self /\
    timestamp rep = now.
Proof.
  unfold analyze_regressions. intros H. invert_bind H. injection H as <-.
  exists x, x0, x1, x2. simpl. repeat split; assumption.
Qed.

(** Every record of a report belongs to one of the four families and is
    either critical or moderate. *)
Lemma report_records (self : analyzer) (now : string) (rep : report) :
  analyze_regressions self now = Ok rep ->
  forall r, In r (all_regressions rep) ->
    In (r_type r) families /\
    (r_severity r = "critical" \/ r_severity r = "moderate").
Proof.
  intros H r Hr.
  destruct (analyze_regressions_inv _ _ _ H)
    as (lh & ld & bn & bu & Hlh & Hld & Hbn & Hbu & Hall & _).
  rewrite Hall in Hr. rewrite !in_app_iff in Hr. unfold families.
  destruct Hr as [Hr | [Hr | [Hr | Hr]]].
  - destruct (analyze_lighthouse_records _ _ Hlh _ Hr) as [-> Hs]. simpl. auto.
  - destruct (analyze_load_records _ _ Hld _ Hr) as [-> Hs]. simpl. auto.
  - destruct (analyze_benchmark_records _ _ Hbn _ Hr) as [-> ->]. simpl. auto.
  - destruct (analyze_bundle_records _ _ Hbu _ Hr) as [-> ->]. simpl. auto 6.
Qed.

(** ** Partition by severity *)

Lemma filter_partition {A : Type} (p q : A -> bool) (l : list A) :
  (forall x, In x l -> p x = negb (q x)) ->
  Permutation (filter p l ++ filter q l) l.
Proof.
  induction l as [|a l IH]; simpl; intros H; [constructor|].
  assert (IH' := IH (fun x Hx => H x (or_intror Hx))).
  rewrite (H a (or_introl eq_refl)). destruct (q a); simpl.
  - apply Permutation_sym. apply Permutation_cons_app. apply Permutation_sym. exact IH'.
  - constructor. exact IH'.
Qed.

Lemma has_severity_true (s : string) (r : regression) :
  has_severity s r = true <-> r_severity r = s.
Proof.
  unfold has_severity. apply String.eqb_eq.
Qed.

(** C3. In every report the critical and the moderate regressions
    partition the regressions: both are the sub-lists selected by severity,
    together they hold every record as often as the full list does, every
    record of the full list is in one of them, and no record is in both. *)
Theorem severity_partition (self : analyzer) (now : string) (rep : report) :
  analyze_regressions self now = Ok rep ->
  Permutation (criticalRegressions rep ++ moderateRegressions rep)
    (all_regressions rep) /\
  (forall r, In r (all_regressions rep) <->
             In r (criticalRegressions rep) \/ In r (moderateRegressions rep)) /\
  (forall r, ~ (In r (criticalRegressions rep) /\ In r (moderateRegressions rep))) /\
  (forall r, In r (criticalRegressions rep) -> r_severity r = "critical") /\
  (forall r, In r (moderateRegressions rep) -> r_severity r = "moderate").
Proof.
  intros H.
  destruct (analyze_regressions_inv _ _ _ H)
    as (lh & ld & bn & bu & _ & _ & _ & _ & _ & -> & -> & _).
  assert (Hsev := report_records _ _ _ H).
  assert (Hperm : Permutation
            (filter (has_severity "critical") (all_regressions rep)
             ++ filter (has_severity "moderate") (all_regressions rep))
            (all_regressions rep)).
  { apply filter_partition. intros r Hr. unfold has_severity.
    destruct (Hsev r Hr) as [_ [-> | ->]]; reflexivity. }
  split; [exact Hperm|]. split; [|split; [|split]].
  - intros r. rewrite <- in_app_iff. split; intros Hr.
    + exact (Permutation_in _ (Permutation_sym Hperm) Hr).
    + exact (Permutation_in _ Hperm Hr).
  - intros r [Hc Hm]. apply filter_In in Hc, Hm.
    destruct Hc as [_ Hc], Hm as [_ Hm].
    apply has_severity_true in Hc, Hm. rewrite Hc in Hm. discriminate.
  - intros r Hr. apply filter_In in Hr. apply has_severity_true. tauto.
  - intros r Hr. apply filter_In in Hr. apply has_severity_true. tauto.
Qed.

(** ** Exit status *)

(** C5. When the baseline loads, the current data load and the report is
    written, the exit status is 1 iff the report holds a critical
    regression and 0 otherwise, whatever the moderate regressions. *)
Theorem exit_code_iff_critical (th : Q) (fs : files) (now_load now_report : string)
    (base : json) (self : analyzer) (rep : report) :
  baseline_file fs = Some base ->
  load_current_data (fst (load_baseline (init th) (Some base))) fs now_load
  = (self, true) ->
  analyze_regressions self now_report = Ok rep ->
  output_writable fs = true ->
  snd (main th fs now_load now_report) = Some rep /\
  (fst (main th fs now_load now_report) = 1 <-> criticalRegressions rep <> []) /\
  (fst (main th fs now_load now_report) = 0 <-> criticalRegressions rep = []).
Proof.
  intros Hb Hc Ha Hw. unfold main. rewrite Hb.
  cbn [load_baseline negb] in *. cbn [fst] in Hc. rewrite Hc. cbn [negb].
  rewrite Ha. unfold save_report. rewrite Hw. cbn [negb].
  destruct (criticalRegressions rep) as [|r l]; cbn [fst snd].
  - repeat split; try reflexivity; try discriminate. intros Hn. destruct (Hn eq_refl).
  - repeat split; try reflexivity; try discriminate.
Qed.

(** ** Recommendations *)

Lemma append_if_filter (p : regression -> bool) (regs : list regression)
    (msg : string) (out : list string) :
  append_if (filter p regs) msg out
  = (out ++ if existsb p regs then [msg] else [])%list.
Proof.
  unfold append_if. induction regs as [|r regs IH]; simpl.
  - rewrite app_nil_r. reflexivity.
  - destruct (p r); simpl; [reflexivity | exact IH].
Qed.

(** C6. On a list of regression records of the four metric families,
    the recommendations are those the specification describes: one fixed
    message per family present, in the order bundle, page audit, load test,
    benchmark, then the critical warning iff a record is critical; and the
    single positive message for the empty list. *)
Theorem recommendations_refine_spec (regs : list regression) :
  (forall r, In r regs -> In (r_type r) families) ->
  generate_recommendations regs = recommendations_spec regs.
Proof.
  intros Hfam. unfold generate_recommendations, recommendations_spec, family_message.
  rewrite !append_if_filter. destruct regs as [|r regs]; [reflexivity|].
  set (l := r :: regs) in *.
  assert (Hsome : existsb (has_type "bundle") l = true
                  \/ existsb (has_type "lighthouse") l = true
                  \/ existsb (has_type "load_test") l = true
                  \/ existsb (has_type "benchmark") l = true).
  { assert (Hr : In r l) by (left; reflexivity).
    assert (Ht := Hfam r Hr). unfold families in Ht. simpl in Ht.
    destruct Ht as [Ht | [Ht | [Ht | [Ht | []]]]].
    - right; left. apply existsb_exists. exists r. split; [exact Hr|].
      unfold has_type. rewrite <- Ht. reflexivity.
    - right; right; left. apply existsb_exists. exists r. split; [exact Hr|].
      unfold has_type. rewrite <- Ht. reflexivity.
    - right; right; right. apply existsb_exists. exists r. split; [exact Hr|].
      unfold has_type. rewrite <- Ht. reflexivity.
    - left. apply existsb_exists. exists r. split; [exact Hr|].
      unfold has_type. rewrite <- Ht. reflexivity. }
  destruct (existsb (has_type "bundle") l), (existsb (has_type "lighthouse") l),
    (existsb (has_type "load_test") l), (existsb (has_type "benchmark") l),
    (existsb (has_severity "critical") l); try reflexivity;
    destruct Hsome as [Hs | [Hs | [Hs | Hs]]]; discriminate.
Qed.

(** ** Determinism *)

Section SameData.
Variables s1 s2 : analyzer.
Hypothesis same_threshold : threshold s1 = threshold s2.
Hypothesis same_baseline : baseline_data s1 = baseline_data s2.
Hypothesis same_current :
  forall key default, key <> "timestamp" ->
    dict_get (current_data s1) key default = dict_get (current_data s2) key default.

Lemma analyze_lighthouse_same :
  analyze_lighthouse_regression s1 = analyze_lighthouse_regression s2.
Proof.
  unfold analyze_lighthouse_regression.
  rewrite same_threshold, same_baseline, same_current by discriminate. reflexivity.
Qed.

Lemma analyze_load_same :
  analyze_load_test_regression s1 = analyze_load_test_regression s2.
Proof.
  unfold analyze_load_test_regression.
  rewrite same_threshold, same_baseline, same_current by discriminate. reflexivity.
Qed.

Lemma analyze_benchmark_same :
  analyze_benchmark_regression s1 = analyze_benchmark_regression s2.
Proof.
  unfold analyze_benchmark_regression.
  rewrite same_threshold, same_baseline, same_current by discriminate. reflexivity.
Qed.

Lemma analyze_bundle_same :
  analyze_bundle_regression s1 = analyze_bundle_regression s2.
Proof.
  unfold analyze_bundle_regression.
  rewrite same_threshold, same_baseline, same_current by discriminate. reflexivity.
Qed.

(** The analysis reads the threshold, the baseline and the four metric
    families of the current data; neither the clock, nor the time stamp
    of the current data, nor the other fields of the analyzer matter. *)
Lemma analyze_regressions_same (now1 now2 : string) :
  same_outcome (analyze_regressions s1 now1) (analyze_regressions s2 now2).
Proof.
  unfold analyze_regressions.
  rewrite analyze_lighthouse_same, analyze_load_same, analyze_benchmark_same,
    analyze_bundle_same.
  destruct (analyze_lighthouse_regression s2); [|reflexivity].
  destruct (analyze_load_test_regression s2); [|reflexivity].
  destruct (analyze_benchmark_regression s2); [|reflexivity].
  destruct (analyze_bundle_regression s2); [|reflexivity].
  simpl. repeat split.
Qed.
End SameData.

Lemma load_current_data_same (self : analyzer) (fs : files) (now1 now2 : string) :
  snd (load_current_data self fs now1) = snd (load_current_data self fs now2) /\
  threshold (fst (load_current_data self fs now1))
  = threshold (fst (load_current_data self fs now2)) /\
  baseline_data (fst (load_current_data self fs now1))
  = baseline_data (fst (load_current_data self fs now2)) /\
  forall key default, key <> "timestamp" ->
    dict_get (current_data (fst (load_current_data self fs now1))) key default
    = dict_get (current_data (fst (load_current_data self fs now2))) key default.
Proof.
  unfold load_current_data.
  destruct (read_all (lighthouse_files fs)); [|repeat split].
  destruct (read_all (load_test_files fs)); [|repeat split].
  destruct (read_first (benchmark_files fs)); [|repeat split].
  destruct (read_first (bundle_files fs)); [|repeat split].
  cbn [fst snd threshold baseline_data current_data]. repeat split.
  intros key default Hk. cbn [dict_get dict_lookup].
  destruct (String.eqb "lighthouse" key); [reflexivity|].
  destruct (String.eqb "loadTests" key); [reflexivity|].
  destruct (String.eqb "benchmarks" key); [reflexivity|].
  destruct (String.eqb "bundle" key); [reflexivity|].
  destruct (String.eqb_spec "timestamp" key) as [<- | _]; [|reflexivity].
  destruct (Hk eq_refl).
Qed.

(** C9. The analysis is deterministic up to the time stamp: two analyses
    with the same threshold, baseline data and current data agree on the
    regressions, the critical and moderate regressions and the
    recommendations, whatever the clock and the other fields of the
    analyzer; and so do two whole runs on the same files and threshold. *)
Theorem analysis_deterministic :
  (forall th base cur regs1 imps1 regs2 imps2 now1 now2,
     same_outcome
       (analyze_regressions (mkAnalyzer th base cur regs1 imps1) now1)
       (analyze_regressions (mkAnalyzer th base cur regs2 imps2) now2)) /\
  (forall th fs now_load1 now_report1 now_load2 now_report2,
     same_run (main th fs now_load1 now_report1)
              (main th fs now_load2 now_report2)).
Proof.
  split.
  - intros. apply analyze_regressions_same; reflexivity.
  - intros th fs nl1 nr1 nl2 nr2. unfold main.
    destruct (load_baseline (init th) (baseline_file fs)) as [a ok].
    destruct ok; cbn [negb]; [|split; reflexivity].
    destruct (load_current_data_same a fs nl1 nl2) as (Hok & Hth & Hb & Hc).
    destruct (load_current_data a fs nl1) as [a1 ok1].
    destruct (load_current_data a fs nl2) as [a2 ok2].
    cbn [fst snd] in *. subst ok2.
    destruct ok1; cbn [negb]; [|split; reflexivity].
    assert (Hsame := analyze_regressions_same a1 a2 Hth Hb Hc nr1 nr2).
    destruct (analyze_regressions a1 nr1) as [r1|e1],
      (analyze_regressions a2 nr2) as [r2|e2]; simpl in Hsame; try contradiction;
      [|split; reflexivity].
    unfold save_report. destruct (output_writable fs); cbn [negb]; [|split; reflexivity].
    assert (H2 : criticalRegressions r1 = criticalRegressions r2) by apply Hsame.
    rewrite H2.
    destruct (criticalRegressions r2); split; cbn [fst snd]; try reflexivity;
      exact Hsame.
Qed.

(** ** Absent fields *)

Lemma Qdiv_self_minus_zero (b : Q) : (0 < b)%Q -> ((b - inject_Z 0) / b == 1)%Q.
Proof.
  intros Hb. change (inject_Z 0) with 0%Q. field.
  intros H. rewrite H in Hb. exact (Qlt_irrefl _ Hb).
Qed.

(** C4 (amended). An absent score category raises no error and is read
    as 0.  When the baseline record lacks the category the comparison is
    skipped: no regression is emitted.  When the current record lacks it,
    the current score counts as 0: the change is 1, and a regression,
    critical, is emitted iff the baseline score is positive and the
    threshold is below 1. *)
Theorem absent_score_reads_zero (self : analyzer) (regs : list regression)
    (k m : string) (bkv ckv : list (string * json)) :
  analyze_lighthouse_regression self = Ok regs ->
  In m lighthouse_metrics ->
  lighthouse_record (baseline_data self) k = Some (JObj bkv) ->
  lighthouse_record (current_data self) k = Some (JObj ckv) ->
  (dict_lookup String.eqb m bkv = None ->
   lighthouse_metric (threshold self) k (JObj bkv) (JObj ckv) m = Ok [] /\
   forall r, In r regs -> r_metric r <> k ++ "-" ++ m) /\
  (dict_lookup String.eqb m ckv = None ->
   forall bv, dict_lookup String.eqb m bkv = Some bv ->
     exists b rs,
       as_num bv = Ok b /\
       lighthouse_metric (threshold self) k (JObj bkv) (JObj ckv) m = Ok rs /\
       ((exists r, In r regs /\ r_metric r = k ++ "-" ++ m) <->
        (0 < b)%Q /\ (threshold self < 1)%Q) /\
       forall r, In r regs -> r_metric r = k ++ "-" ++ m ->
         r_baseline r = bv /\ r_current r = JInt 0 /\
         (r_change r == 1)%Q /\ r_severity r = "critical").
Proof.
  intros Han Hm Hb Hc. split.
  - intros Habs. split.
    + unfold lighthouse_metric. simpl. rewrite Habs. simpl.
      destruct (dict_lookup String.eqb m ckv); reflexivity.
    + intros r Hr Hname.
      destruct (lighthouse_emitted_inv _ _ _ _ _ Han Hm Hr Hname)
        as (bitem & citem & bv & cv & b & c & H1 & H2 & H3 & H4 & H5 & H6 & H7 & _).
      rewrite Hb in H1. injection H1 as <-. simpl in H3. rewrite Habs in H3.
      injection H3 as <-. injection H4 as <-. discriminate.
  - intros Habs bv Hbv.
    assert (Hgb : dict_get (JObj bkv) m (JInt 0) = Ok bv) by (simpl; rewrite Hbv; reflexivity).
    assert (Hgc : dict_get (JObj ckv) m (JInt 0) = Ok (JInt 0)) by (simpl; rewrite Habs; reflexivity).
    assert (Hentry : exists rs,
               lighthouse_metric (threshold self) k (JObj bkv) (JObj ckv) m = Ok rs).
    { unfold analyze_lighthouse_regression in Han. invert_bind Han.
      unfold lighthouse_record, lighthouse_items in Hb, Hc. rewrite E in Hb. rewrite E0 in Hc.
      simpl in Hb, Hc. rewrite E1 in Hb. rewrite E3 in Hc.
      unfold group_lighthouse in E2, E4.
      assert (Hlb : dict_lookup String.eqb k x2 = Some (JObj bkv)).
      { rewrite (group_items_lookup _ String.eqb_sym string_eqb_trans _ _ _ _ k E2).
        rewrite Hb. reflexivity. }
      destruct (dict_lookup_In _ _ _ _ Hlb) as (k0 & Hin & Hk0).
      apply String.eqb_eq in Hk0. subst k0.
      destruct (flat_mapM_each _ _ _ Han _ Hin) as (ra & Hra).
      unfold lighthouse_entry in Hra. cbn [fst snd] in Hra.
      rewrite (group_items_lookup _ String.eqb_sym string_eqb_trans _ _ _ _ k E4) in Hra.
      rewrite Hc in Hra. exact (flat_mapM_each _ _ _ Hra _ Hm). }
    destruct Hentry as (rs & Hrs).
    destruct (lighthouse_metric_cases _ _ _ _ _ _ Hrs) as (bv' & cv' & b & Hbv' & _ & Hnb & _).
    rewrite Hgb in Hbv'. injection Hbv' as <-.
    exists b, rs. split; [exact Hnb|]. split; [exact Hrs|]. split; [split|].
    + intros (r & Hr & Hname).
      destruct (lighthouse_emitted_inv _ _ _ _ _ Han Hm Hr Hname)
        as (bitem & citem & bv1 & cv1 & b1 & c1 & H1 & H2 & H3 & H4 & H5 & H6 & H7 & H8 & _).
      rewrite Hb in H1. injection H1 as <-. rewrite Hc in H2. injection H2 as <-.
      rewrite Hgb in H3. injection H3 as <-. rewrite Hgc in H5. injection H5 as <-.
      rewrite Hnb in H4. injection H4 as <-. injection H6 as <-.
      split; [exact H7|]. rewrite (Qdiv_self_minus_zero _ H7) in H8. exact H8.
    + intros [Hpos Hth].
      exists (lighthouse_regression k m bv (JInt 0) ((b - inject_Z 0) / b)%Q).
      split; [|reflexivity].
      apply (lighthouse_emitted self regs k m (JObj bkv) (JObj ckv) bv (JInt 0) b (inject_Z 0));
        try assumption; try reflexivity.
      rewrite (Qdiv_self_minus_zero _ Hpos). exact Hth.
    + intros r Hr Hname.
      destruct (lighthouse_emitted_inv _ _ _ _ _ Han Hm Hr Hname)
        as (bitem & citem & bv1 & cv1 & b1 & c1 & H1 & H2 & H3 & H4 & H5 & H6 & H7 & H8 & ->).
      rewrite Hb in H1. injection H1 as <-. rewrite Hc in H2. injection H2 as <-.
      rewrite Hgb in H3. injection H3 as <-. rewrite Hgc in H5. injection H5 as <-.
      rewrite Hnb in H4. injection H4 as <-. injection H6 as <-.
      cbn [r_baseline r_current r_change r_severity lighthouse_regression].
      assert (Hone := Qdiv_self_minus_zero _ H7).
      repeat split; try exact Hone.
      assert (Hgt : Qgtb ((b - inject_Z 0) / b) (2 # 10) = true).
      { apply Qgtb_true. rewrite Hone. reflexivity. }
      rewrite Hgt. reflexivity.
Qed.

(** ** Duplicate keys and default keys *)








(** ** The worked example *)

Lemma demo_lighthouse_eq : analyze_lighthouse_regression demo = Ok demo_lighthouse.
Proof. vm_compute. reflexivity. Qed.

Lemma demo_load_tests_eq : analyze_load_test_regression demo = Ok demo_load_tests.
Proof. vm_compute. reflexivity. Qed.


Lemma demo_report_eq : analyze_regressions demo demo_clock = Ok demo_report.
Proof. vm_compute. reflexivity. Qed.

Lemma demo_home_baseline_record :
  lighthouse_record (baseline_data demo) "desktop-home" = Some (JObj demo_home_baseline).
Proof. vm_compute. reflexivity. Qed.

Lemma demo_home_current_record :
  lighthouse_record (current_data demo) "desktop-home" = Some (JObj demo_home_current).
Proof. vm_compute. reflexivity. Qed.



Lemma severity_partition_witness :
  analyze_regressions demo demo_clock = Ok demo_report /\
  Permutation (criticalRegressions demo_report ++ moderateRegressions demo_report)
    (all_regressions demo_report).
Proof.
  split; [exact demo_report_eq|].
  exact (proj1 (severity_partition demo demo_clock demo_report demo_report_eq)).
Defined.

(** The current [desktop-home] audit has no [seo] score while the baseline
    has 95: a regression is emitted. *)
Lemma absent_score_reads_zero_witness :
  analyze_lighthouse_regression demo = Ok demo_lighthouse /\
  In "seo" lighthouse_metrics /\
  lighthouse_record (baseline_data demo) "desktop-home" = Some (JObj demo_home_baseline) /\
  lighthouse_record (current_data demo) "desktop-home" = Some (JObj demo_home_current) /\
  dict_lookup String.eqb "seo" demo_home_current = None /\
  dict_lookup String.eqb "seo" demo_home_baseline = Some (JInt 95) /\
  exists b rs,
    as_num (JInt 95) = Ok b /\
    lighthouse_metric (threshold demo) "desktop-home" (JObj demo_home_baseline)
      (JObj demo_home_current) "seo" = Ok rs /\
    ((exists r, In r demo_lighthouse /\ r_metric r = "desktop-home" ++ "-" ++ "seo") <->
     (0 < b)%Q /\ (threshold demo < 1)%Q) /\
    forall r, In r demo_lighthouse -> r_metric r = "desktop-home" ++ "-" ++ "seo" ->
      r_baseline r = JInt 95 /\ r_current r = JInt 0 /\
      (r_change r == 1)%Q /\ r_severity r = "critical".
Proof.
  assert (Hm : In "seo" lighthouse_metrics) by (do 3 right; left; reflexivity).
  assert (Hc : dict_lookup String.eqb "seo" demo_home_current = None) by reflexivity.
  assert (Hb : dict_lookup String.eqb "seo" demo_home_baseline = Some (JInt 95))
    by reflexivity.
  repeat (split; [first [exact demo_lighthouse_eq | exact Hm | exact Hc | exact Hb
                        | exact demo_home_baseline_record
                        | exact demo_home_current_record]|]).
  exact (proj2 (absent_score_reads_zero demo demo_lighthouse "desktop-home" "seo"
                  demo_home_baseline demo_home_current demo_lighthouse_eq Hm
                  demo_home_baseline_record demo_home_current_record)
           Hc (JInt 95) Hb).
Defined.

(** C4, as stated, fails: the current audit of [desktop-home] has no
    [performance] score, and yet a regression, critical, is emitted for
    it. *)
Lemma absent_score_counterexample :
  lighthouse_record (current_data absent_score_input) "desktop-home"
  = Some (JObj [("device", JStr "desktop"); ("page", JStr "home")]) /\
  dict_lookup String.eqb "performance"
    [("device", JStr "desktop"); ("page", JStr "home")] = None /\
  exists r,
    analyze_lighthouse_regression absent_score_input = Ok [r] /\
    r_type r = "lighthouse" /\
    r_metric r = "desktop-home-performance" /\
    r_baseline r = JInt 90 /\
    r_current r = JInt 0 /\
    (r_change r == 1)%Q /\
    r_severity r = "critical" /\
    r_description r = "Lighthouse performance degraded by 100.0% for desktop-home".
Proof.
  split; [vm_compute; reflexivity|]. split; [reflexivity|].
  eexists. split; [vm_compute; reflexivity|]. repeat split.
Qed.

Lemma exit_code_iff_critical_witness :
  baseline_file demo_files = Some demo_baseline /\
  load_current_data (fst (load_baseline (init (1 # 10)) (Some demo_baseline)))
    demo_files demo_clock = (demo, true) /\
  analyze_regressions demo demo_clock = Ok demo_report /\
  output_writable demo_files = true /\
  fst (main (1 # 10) demo_files demo_clock demo_clock) = 1.
Proof.
  assert (Hl : load_current_data (fst (load_baseline (init (1 # 10)) (Some demo_baseline)))
                 demo_files demo_clock = (demo, true)) by reflexivity.
  split; [reflexivity|]. split; [exact Hl|]. split; [exact demo_report_eq|].
  split; [reflexivity|].
  apply (proj1 (proj2 (exit_code_iff_critical (1 # 10) demo_files demo_clock demo_clock
                         demo_baseline demo demo_report eq_refl Hl demo_report_eq
                         eq_refl))).
  vm_compute. discriminate.
Defined.

Lemma recommendations_refine_spec_witness :
  (forall r, In r (all_regressions demo_report) -> In (r_type r) families) /\
  generate_recommendations (all_regressions demo_report)
  = recommendations_spec (all_regressions demo_report).
Proof.
  assert (H : forall r, In r (all_regressions demo_report) -> In (r_type r) families).
  { intros r Hr. exact (proj1 (report_records demo demo_clock demo_report
                                 demo_report_eq r Hr)). }
  split; [exact H|].
  exact (recommendations_refine_spec (all_regressions demo_report) H).
Defined.


Lemma bundle_regression_1000_1150_witness :
  (threshold demo == 1 # 10)%Q /\
  dict_get (baseline_data demo) "bundle" (JObj []) = Ok (demo_bundle 1000) /\
  dict_get (current_data demo) "bundle" (JObj []) = Ok (demo_bundle 1150) /\
  dict_get (demo_bundle 1000) "totalSize" (JInt 0) = Ok (JInt 1000) /\
  dict_get (demo_bundle 1150) "totalSize" (JInt 0) = Ok (JInt 1150) /\
  exists r,
    analyze_bundle_regression demo = Ok [r] /\
    r_type r = "bundle" /\
    (r_change r == 15 # 100)%Q /\
    r_severity r = "moderate" /\
    exists pre post, r_description r = pre ++ "150 bytes" ++ post.
Proof.
  assert (H1 : (threshold demo == 1 # 10)%Q) by reflexivity.
  assert (H2 : dict_get (baseline_data demo) "bundle" (JObj []) = Ok (demo_bundle 1000))
    by reflexivity.
  assert (H3 : dict_get (current_data demo) "bundle" (JObj []) = Ok (demo_bundle 1150))
    by reflexivity.
  repeat (split; [first [exact H1 | exact H2 | exact H3 | reflexivity]|]).
  exact (bundle_regression_1000_1150 demo (demo_bundle 1000) (demo_bundle 1150)
           H1 H2 H3 eq_refl eq_refl).
Defined.


(** ** Response-time regressions *)

Lemma response_time_check_cases (th : Q) (s bitem citem : json)
    (rt : list regression) :
  response_time_check th s bitem citem = Ok rt ->
  exists bv cv b,
    load_metric bitem "http_req_duration" "avg" = Ok bv /\
    load_metric citem "http_req_duration" "avg" = Ok cv /\
    as_num bv = Ok b /\
    ((~ (0 < b)%Q /\ rt = []) \/
     ((0 < b)%Q /\
      exists c, as_num cv = Ok c /\
        (((th < (c - b) / b)%Q /\
          rt = [response_time_regression s bv cv ((c - b) / b)%Q]) \/
         (~ (th < (c - b) / b)%Q /\ rt = [])))).
Proof.
  unfold response_time_check. intros H. invert_bind H.
  exists x, x0, x1. repeat split; try assumption.
  destruct (Qgtb x1 0) eqn:Hb.
  - right. apply Qgtb_true in Hb. split; [exact Hb|].
    invert_bind H. exists x2. split; [assumption|].
    destruct (Qgtb ((x2 - x1) / x1) th) eqn:Hc; injection H as <-.
    + left. apply Qgtb_true in Hc. auto.
    + right. apply Qgtb_false in Hc. auto.
  - left. apply Qgtb_false in Hb. injection H as <-. auto.
Qed.





(** ** Bundle comparator, in general *)





(** ** Raising the threshold *)




Section Thresholds.
Variables th1 th2 : Q.
Hypothesis th_le : (th1 <= th2)%Q.






End Thresholds.

Section RaisedThreshold.
Variables s1 s2 : analyzer.
Hypothesis same_baseline : baseline_data s1 = baseline_data s2.
Hypothesis same_current : current_data s1 = current_data s2.
Hypothesis th_le : (threshold s1 <= threshold s2)%Q.




End RaisedThreshold.



(** ** A snapshot compared with itself *)

Lemma Qdiv_same_minus (b : Q) : ((b - b) / b == 0)%Q.
Proof.
  unfold Qdiv. setoid_replace (b - b)%Q with 0%Q by ring. ring.
Qed.

Lemma no_change_not_above (th b : Q) : (0 <= th)%Q -> ~ (th < (b - b) / b)%Q.
Proof.
  intros Hth H. rewrite Qdiv_same_minus in H. exact (Qlt_not_le _ _ H Hth).
Qed.

Lemma enumerate_In {A : Type} (l : list A) (i : nat) (x : A) :
  In (i, x) (enumerate l) -> nth_error l i = Some x.
Proof.
  intros H. apply In_nth_error in H. destruct H as (j & Hj).
  rewrite enumerate_nth in Hj. destruct (nth_error l j) as [y|] eqn:E; [|discriminate].
  simpl in Hj. injection Hj as <- <-. exact E.
Qed.

Lemma chars_not_dict (s : string) (x : json) (key : string) (d : json) :
  In x (chars s) -> dict_get x key d = Raise AttributeError.
Proof.
  induction s as [|c s IH]; simpl; [intros []|].
  intros [<- | H]; [reflexivity | exact (IH H)].
Qed.

Section SameSnapshot.
Variable th : Q.
Hypothesis th_nonneg : (0 <= th)%Q.

Lemma lighthouse_metric_same_item (k : string) (item : json) (m : string)
    (rs : list regression) :
  lighthouse_metric th k item item m = Ok rs -> rs = [].
Proof.
  intros H.
  destruct (lighthouse_metric_cases _ _ _ _ _ _ H)
    as (bv & cv & b & Hbv & Hcv & Hb & [[_ ->] | [_ (c & Hc & [[Hgt _] | [_ ->]])]]);
    try reflexivity.
  rewrite Hbv in Hcv. injection Hcv as <-. rewrite Hb in Hc. injection Hc as <-.
  destruct (no_change_not_above _ _ th_nonneg Hgt).
Qed.

Lemma response_time_check_same_item (s item : json) (rt : list regression) :
  response_time_check th s item item = Ok rt -> rt = [].
Proof.
  intros H.
  destruct (response_time_check_cases _ _ _ _ _ H)
    as (bv & cv & b & Hbv & Hcv & Hb & [[_ ->] | [_ (c & Hc & [[Hgt _] | [_ ->]])]]);
    try reflexivity.
  rewrite Hbv in Hcv. injection Hcv as <-. rewrite Hb in Hc. injection Hc as <-.
  destruct (no_change_not_above _ _ th_nonneg Hgt).
Qed.

Lemma error_rate_check_same_item (s item : json) (er : list regression) :
  error_rate_check s item item = Ok er -> er = [].
Proof.
  intros H.
  destruct (error_rate_check_cases _ _ _ _ H)
    as (bv & cv & b & c & Hbv & Hb & Hcv & Hc & [[Hgt _] | [_ ->]]); try reflexivity.
  rewrite Hbv in Hcv. injection Hcv as <-. rewrite Hb in Hc. injection Hc as <-.
  exfalso. setoid_replace (b - b)%Q with 0%Q in Hgt by ring. discriminate.
Qed.

Lemma benchmark_result_same_results (t : string) (results : json)
    (bitems : list json) (ib : nat * json) (o : list regression) :
  py_iter results = Ok bitems -> In ib (enumerate bitems) ->
  benchmark_result th t results ib = Ok o -> o = [].
Proof.
  destruct ib as [i bres]. intros Hit Hin H. apply enumerate_In in Hin.
  destruct results; try discriminate; simpl in Hit; injection Hit as <-.
  - unfold benchmark_result in H. cbn [fst snd py_len py_index bind] in H.
    destruct (String.length s <=? i)%nat; [injection H as <-; reflexivity|].
    rewrite Hin in H. cbn [bind] in H.
    apply nth_error_In in Hin. rewrite (chars_not_dict _ _ _ _ Hin) in H. discriminate.
  - assert (Hpair := benchmark_result_array _ _ _ _ _ _ H). rewrite Hin in Hpair.
    destruct Hpair as (bt & b & Hbt & Hb & Hnpos & Hpos).
    destruct (Qlt_le_dec 0 b) as [Hp | Hn]; [|apply Hnpos; apply Qle_not_lt; exact Hn].
    destruct (Hpos Hp) as (ct & c & Hct & Hc & Hiff & _).
    rewrite Hbt in Hct. injection Hct as <-. rewrite Hb in Hc. injection Hc as <-.
    destruct o as [|r o]; [reflexivity|].
    assert (Hgt : (th < (b - b) / b)%Q) by (apply Hiff; discriminate).
    destruct (no_change_not_above _ _ th_nonneg Hgt).
  - unfold benchmark_result in H. cbn [fst snd py_len py_index bind] in H.
    destruct (List.length kvs <=? i)%nat; [injection H as <-; reflexivity|].
    discriminate.
Qed.
End SameSnapshot.

(** X4. A snapshot compared with itself shows no regression: when the
    threshold is not negative and the current data hold, for the four
    metric families, what the baseline holds, an analysis that returns
    reports no regression and the single positive recommendation. *)
Theorem identical_snapshots_no_regression (self : analyzer) (now : string)
    (rep : report) :
  (0 <= threshold self)%Q ->
  (forall key default, In key family_keys ->
     dict_get (current_data self) key default
     = dict_get (baseline_data self) key default) ->
  analyze_regressions self now = Ok rep ->
  all_regressions rep = [] /\
  criticalRegressions rep = [] /\
  moderateRegressions rep = [] /\
  recommendations rep = [msg_none].
Proof.
  intros Hth Hsame H.
  destruct (analyze_regressions_inv _ _ _ H)
    as (lh & ld & bn & bu & Hlh & Hld & Hbn & Hbu & Hall & Hc & Hm & Hr & _).
  assert (Hnil : forall l : list regression, (forall r, ~ In r l) -> l = []).
  { intros [|r l] Hl; [reflexivity|]. destruct (Hl r (or_introl eq_refl)). }
  assert (Elh : lh = []).
  { apply Hnil. intros r Hr'. apply (analyze_lighthouse_In _ _ Hlh) in Hr'.
    destruct Hr' as (k & bitem & citem & m & rs & Hb & Hcu & _ & Hrs & Hin).
    unfold lighthouse_record, lighthouse_items in Hb, Hcu.
    rewrite Hsame in Hcu by (simpl; auto). rewrite Hb in Hcu. injection Hcu as <-.
    rewrite (lighthouse_metric_same_item _ Hth _ _ _ _ Hrs) in Hin. exact Hin. }
  assert (Eld : ld = []).
  { apply Hnil. intros r Hr'.
    destruct (analyze_load_inv _ _ Hld)
      as (bitems & citems & bg & cg & Hbi & Hci & Hbg & Hcg & Hfm).
    unfold load_items in Hci. rewrite Hsame in Hci by (simpl; auto).
    fold (load_items (baseline_data self)) in Hci. rewrite Hbi in Hci.
    injection Hci as <-. rewrite Hbg in Hcg. injection Hcg as <-.
    apply (flat_mapM_In _ _ _ Hfm) in Hr'.
    destruct Hr' as ([s bitem] & ra & Hin & Hra & Hr').
    unfold load_entry in Hra. cbn [fst snd] in Hra.
    rewrite (proj2 (group_load_entry _ _ _ _ Hbg Hin)) in Hra.
    invert_bind Hra. injection Hra as <-.
    rewrite (response_time_check_same_item _ Hth _ _ _ E),
      (error_rate_check_same_item _ _ _ E0) in Hr'. exact Hr'. }
  assert (Ebn : bn = []).
  { apply Hnil. intros r Hr'. unfold analyze_benchmark_regression in Hbn.
    rewrite Hsame in Hbn by (simpl; auto). invert_bind Hbn.
    rewrite E in E0. injection E0 as <-.
    apply (flat_mapM_In _ _ _ Hbn) in Hr'. destruct Hr' as (t & rs & _ & Hrs & Hr').
    unfold benchmark_type in Hrs. invert_bind Hrs.
    rewrite E0 in E1. injection E1 as <-.
    destruct (negb (py_truthy x0) || negb (py_truthy x0));
      [injection Hrs as <-; exact Hr'|].
    invert_bind Hrs. rewrite E1 in E2. injection E2 as <-.
    apply (flat_mapM_In _ _ _ Hrs) in Hr'. destruct Hr' as (ib & o & Hib & Ho & Hr').
    rewrite (benchmark_result_same_results _ Hth _ _ _ _ _ E3 Hib Ho) in Hr'.
    exact Hr'. }
  assert (Ebu : bu = []).
  { unfold analyze_bundle_regression in Hbu.
    rewrite Hsame in Hbu by (simpl; auto). invert_bind Hbu.
    rewrite E in E0. injection E0 as <-.
    destruct (negb (py_truthy x) || negb (py_truthy x));
      [injection Hbu as <-; reflexivity|].
    invert_bind Hbu. rewrite E0 in E1. injection E1 as <-.
    destruct (Qgtb x2 0); [|injection Hbu as <-; reflexivity].
    invert_bind Hbu. rewrite E2 in E1. injection E1 as <-.
    destruct (Qgtb ((x2 - x2) / x2) (threshold self)) eqn:Hgt;
      [|injection Hbu as <-; reflexivity].
    apply Qgtb_true in Hgt. destruct (no_change_not_above _ _ Hth Hgt). }
  subst lh ld bn bu. simpl in Hall. rewrite Hall in Hc, Hm, Hr.
  repeat split; assumption.
Qed.

(** ** Loading the current run *)

Lemma read_all_Some (l : list (option json)) (ds : list json) :
  read_all l = Some ds <-> Forall2 (fun f d => f = Some d) l ds.
Proof.
  revert ds; induction l as [|f l IH]; intros ds; simpl.
  - split.
    + intros [= <-]. constructor.
    + intros H. inversion H. reflexivity.
  - destruct f as [d|].
    + destruct (read_all l) as [ds'|].
      * split.
        -- intros [= <-]. constructor; [reflexivity | apply IH; reflexivity].
        -- intros H. inversion H as [|? ? ? ? Hd Hl]; subst.
           injection Hd as <-. apply IH in Hl. injection Hl as <-. reflexivity.
      * split; [discriminate|]. intros H. inversion H as [|? ? ? ? Hd Hl]; subst.
        apply IH in Hl. discriminate.
    + split; [discriminate|]. intros H. inversion H; discriminate.
Qed.

Lemma read_all_None (l : list (option json)) :
  read_all l = None <-> In None l.
Proof.
  induction l as [|f l IH]; simpl.
  - split; [discriminate | intros []].
  - destruct f as [d|].
    + destruct (read_all l) as [ds|].
      * split; [discriminate|]. intros [H | H]; [discriminate|].
        apply IH in H. discriminate.
      * split; [intros _; right; apply IH; reflexivity | reflexivity].
    + split; [intros _; left; reflexivity | reflexivity].
Qed.

Lemma load_current_data_fails (self : analyzer) (fs : files) (now : string) :
  snd (load_current_data self fs now) = false <->
  In None (lighthouse_files fs) \/ In None (load_test_files fs) \/
  read_first (benchmark_files fs) = None \/ read_first (bundle_files fs) = None.
Proof.
  unfold load_current_data.
  destruct (read_all (lighthouse_files fs)) as [lh|] eqn:Elh.
  2:{ cbn [snd]. apply read_all_None in Elh. tauto. }
  destruct (read_all (load_test_files fs)) as [lt|] eqn:Elt.
  2:{ cbn [snd]. apply read_all_None in Elt. tauto. }
  destruct (read_first (benchmark_files fs)) as [bn|] eqn:Ebn; [|cbn [snd]; tauto].
  destruct (read_first (bundle_files fs)) as [bu|] eqn:Ebu; [|cbn [snd]; tauto].
  cbn [snd]. split; [discriminate|]. intros [H | [H | [H | H]]]; try discriminate.
  - apply read_all_None in H. congruence.
  - apply read_all_None in H. congruence.
Qed.

Lemma load_current_data_threshold (self : analyzer) (fs : files) (now : string) :
  threshold (fst (load_current_data self fs now)) = threshold self.
Proof.
  unfold load_current_data.
  destruct (read_all (lighthouse_files fs)); [|reflexivity].
  destruct (read_all (load_test_files fs)); [|reflexivity].
  destruct (read_first (benchmark_files fs)); [|reflexivity].
  destruct (read_first (bundle_files fs)); reflexivity.
Qed.

(** X7. Loading the current run fails, leaving the analyzer as it was, iff
    a page-audit or load-test summary cannot be read, or the first
    benchmark or bundle summary cannot.  When it succeeds, the threshold
    and the baseline are kept, the current data hold every page-audit and
    load-test summary in the order found, and the first benchmark and
    bundle summary (an empty object if there is none); further benchmark
    and bundle summaries are never read. *)
Theorem load_current_data_outcome (self : analyzer) (fs : files) (now : string) :
  (snd (load_current_data self fs now) = false <->
   In None (lighthouse_files fs) \/ In None (load_test_files fs) \/
   read_first (benchmark_files fs) = None \/ read_first (bundle_files fs) = None) /\
  (snd (load_current_data self fs now) = false ->
   fst (load_current_data self fs now) = self) /\
  (snd (load_current_data self fs now) = true ->
   let loaded := fst (load_current_data self fs now) in
   threshold loaded = threshold self /\
   baseline_data loaded = baseline_data self /\
   exists lighthouse load bench bundle,
     Forall2 (fun f d => f = Some d) (lighthouse_files fs) lighthouse /\
     Forall2 (fun f d => f = Some d) (load_test_files fs) load /\
     hd (Some (JObj [])) (benchmark_files fs) = Some bench /\
     hd (Some (JObj [])) (bundle_files fs) = Some bundle /\
     forall default,
       dict_get (current_data loaded) "lighthouse" default = Ok (JArr lighthouse) /\
       dict_get (current_data loaded) "loadTests" default = Ok (JArr load) /\
       dict_get (current_data loaded) "benchmarks" default = Ok bench /\
       dict_get (current_data loaded) "bundle" default = Ok bundle /\
       dict_get (current_data loaded) "timestamp" default = Ok (JStr now)).
Proof.
  split; [apply load_current_data_fails|].
  unfold load_current_data.
  destruct (read_all (lighthouse_files fs)) as [lh|] eqn:Elh;
    [|split; [reflexivity | discriminate]].
  destruct (read_all (load_test_files fs)) as [lt|] eqn:Elt;
    [|split; [reflexivity | discriminate]].
  destruct (read_first (benchmark_files fs)) as [bn|] eqn:Ebn;
    [|split; [reflexivity | discriminate]].
  destruct (read_first (bundle_files fs)) as [bu|] eqn:Ebu;
    [|split; [reflexivity | discriminate]].
  cbn [fst snd]. split.
  - discriminate.
  - intros _. cbn [threshold baseline_data current_data]. repeat split.
    exists lh, lt, bn, bu. apply read_all_Some in Elh, Elt.
    repeat split; assumption.
Qed.

(** ** Outcomes of [main] *)


(** ** A current run without data *)

Lemma flat_mapM_nil {A B : Type} (f : A -> result (list B)) (l : list A)
    (rs : list B) :
  (forall a ra, In a l -> f a = Ok ra -> ra = []) ->
  flat_mapM f l = Ok rs -> rs = [].
Proof.
  revert rs; induction l as [|a l IH]; simpl; intros rs Hnil H.
  - injection H as <-. reflexivity.
  - invert_bind H. injection H as <-.
    rewrite (Hnil a x (or_introl eq_refl) E).
    rewrite (IH x0 (fun b rb Hb => Hnil b rb (or_intror Hb)) E0). reflexivity.
Qed.

Lemma lighthouse_empty_current (self : analyzer) (regs : list regression) :
  dict_get (current_data self) "lighthouse" (JArr []) = Ok (JArr []) ->
  analyze_lighthouse_regression self = Ok regs -> regs = [].
Proof.
  intros Hc H. unfold analyze_lighthouse_regression in H. rewrite Hc in H.
  invert_bind H. injection E0 as <-. injection E3 as <-. injection E4 as <-.
  apply (flat_mapM_nil _ _ _) with (2 := H).
  intros kv ra _ Hra. injection Hra as <-. reflexivity.
Qed.

Lemma load_empty_current (self : analyzer) (regs : list regression) :
  dict_get (current_data self) "loadTests" (JArr []) = Ok (JArr []) ->
  analyze_load_test_regression self = Ok regs -> regs = [].
Proof.
  intros Hc H. unfold analyze_load_test_regression in H. rewrite Hc in H.
  invert_bind H. injection E0 as <-. injection E3 as <-. injection E4 as <-.
  apply (flat_mapM_nil _ _ _) with (2 := H).
  intros kv ra _ Hra. injection Hra as <-. reflexivity.
Qed.

Lemma benchmark_empty_current (self : analyzer) (regs : list regression) :
  dict_get (current_data self) "benchmarks" (JObj []) = Ok (JObj []) ->
  analyze_benchmark_regression self = Ok regs -> regs = [].
Proof.
  intros Hc H. unfold analyze_benchmark_regression in H. rewrite Hc in H.
  invert_bind H. injection E0 as <-.
  apply (flat_mapM_nil _ _ _) with (2 := H).
  intros t ra _ Hra. unfold benchmark_type in Hra. invert_bind Hra.
  cbn [dict_get dict_lookup] in E1. injection E1 as <-.
  cbn [py_truthy negb] in Hra. rewrite orb_true_r in Hra. injection Hra as <-.
  reflexivity.
Qed.

Lemma bundle_empty_current (self : analyzer) (regs : list regression) :
  dict_get (current_data self) "bundle" (JObj []) = Ok (JObj []) ->
  analyze_bundle_regression self = Ok regs -> regs = [].
Proof.
  intros Hc H. unfold analyze_bundle_regression in H. rewrite Hc in H.
  invert_bind H. injection E0 as <-. cbn [py_truthy negb] in H.
  rewrite orb_true_r in H. injection H as <-. reflexivity.
Qed.

(** X5. A current run in which no summary file is found never fails the
    gate: whatever the baseline holds, either no report is written (status
    1: the baseline does not fit the analysis or the output cannot be
    written), or the report written has no regression, the single positive
    recommendation, and the status is 0. *)
Theorem empty_current_run (th : Q) (fs : files) (now_load now_report : string)
    (base : json) :
  baseline_file fs = Some base ->
  lighthouse_files fs = [] -> load_test_files fs = [] ->
  benchmark_files fs = [] -> bundle_files fs = [] ->
  match snd (main th fs now_load now_report) with
  | Some rep =>
      fst (main th fs now_load now_report) = 0 /\
      all_regressions rep = [] /\ recommendations rep = [msg_none]
  | None => fst (main th fs now_load now_report) = 1
  end.
Proof.
  intros Hb Hlh Hlt Hbn Hbu. unfold main, load_current_data.
  rewrite Hb, Hlh, Hlt, Hbn, Hbu.
  cbn [load_baseline negb read_all read_first fst snd].
  match goal with
  | |- context [analyze_regressions ?a now_report] => set (self := a)
  end.
  destruct (analyze_regressions self now_report) as [rep|e] eqn:Ea; [|reflexivity].
  destruct (analyze_regressions_inv _ _ _ Ea)
    as (lh & ld & bn & bu & Hl & Hd & Hn & Hu & Hall & Hc & _ & Hr & _).
  rewrite (lighthouse_empty_current self lh eq_refl Hl),
    (load_empty_current self ld eq_refl Hd),
    (benchmark_empty_current self bn eq_refl Hn),
    (bundle_empty_current self bu eq_refl Hu) in Hall.
  simpl in Hall. rewrite Hall in Hc, Hr.
  unfold save_report. destruct (output_writable fs); cbn [negb]; [|reflexivity].
  rewrite Hc. cbn [fst snd]. repeat split; assumption.
Qed.

(** ** Order and content of the report *)

Lemma filter_type_block (t t' : string) (l : list regression) :
  (forall r, In r l -> r_type r = t) ->
  filter (has_type t') l = if String.eqb t t' then l else [].
Proof.
  induction l as [|r l IH]; intros H; simpl.
  - destruct (String.eqb t t'); reflexivity.
  - unfold has_type at 1. rewrite (H r (or_introl eq_refl)).
    rewrite (IH (fun x Hx => H x (or_intror Hx))).
    destruct (String.eqb t t'); reflexivity.
Qed.

(** X8. The regressions of a report come grouped by metric family, in the
    order page audit, load test, benchmark, bundle: the list is the
    concatenation of its records of each family, which are the output of
    that family's comparator. *)
Theorem report_grouped_by_family (self : analyzer) (now : string) (rep : report) :
  analyze_regressions self now = Ok rep ->
  let regs := all_regressions rep in
  regs = (filter (has_type "lighthouse") regs ++ filter (has_type "load_test") regs
          ++ filter (has_type "benchmark") regs ++ filter (has_type "bundle") regs)%list /\
  analyze_lighthouse_regression self = Ok (filter (has_type "lighthouse") regs) /\
  analyze_load_test_regression self = Ok (filter (has_type "load_test") regs) /\
  analyze_benchmark_regression self = Ok (filter (has_type "benchmark") regs) /\
  analyze_bundle_regression self = Ok (filter (has_type "bundle") regs).
Proof.
  intros H. cbv zeta.
  destruct (analyze_regressions_inv _ _ _ H)
    as (lh & ld & bn & bu & Hlh & Hld & Hbn & Hbu & -> & _).
  assert (Tlh : forall r, In r lh -> r_type r = "lighthouse")
    by (intros r Hr; exact (proj1 (analyze_lighthouse_records _ _ Hlh r Hr))).
  assert (Tld : forall r, In r ld -> r_type r = "load_test")
    by (intros r Hr; exact (proj1 (analyze_load_records _ _ Hld r Hr))).
  assert (Tbn : forall r, In r bn -> r_type r = "benchmark")
    by (intros r Hr; exact (proj1 (analyze_benchmark_records _ _ Hbn r Hr))).
  assert (Tbu : forall r, In r bu -> r_type r = "bundle")
    by (intros r Hr; exact (proj1 (analyze_bundle_records _ _ Hbu r Hr))).
  rewrite !filter_app.
  rewrite !(filter_type_block _ _ lh Tlh), !(filter_type_block _ _ ld Tld),
    !(filter_type_block _ _ bn Tbn), !(filter_type_block _ _ bu Tbu).
  simpl. rewrite !app_nil_r. repeat split; assumption.
Qed.

Lemma benchmark_result_change (th : Q) (t : string) (cres : json)
    (ib : nat * json) (o : list regression) :
  benchmark_result th t cres ib = Ok o ->
  forall r, In r o -> (th < r_change r)%Q.
Proof.
  unfold benchmark_result. intros H r Hr. invert_bind H.
  destruct (x <=? fst ib)%nat; [injection H as <-; destruct Hr|].
  invert_bind H. destruct (Qgtb x3 0); [|injection H as <-; destruct Hr].
  invert_bind H.
  destruct (Qgtb ((x4 - x3) / x3) th) eqn:Hgt; [|injection H as <-; destruct Hr].
  invert_bind H. injection H as <-. destruct Hr as [<- | []].
  apply Qgtb_true in Hgt. exact Hgt.
Qed.

Lemma analyze_benchmark_change (self : analyzer) (regs : list regression) :
  analyze_benchmark_regression self = Ok regs ->
  forall r, In r regs -> (threshold self < r_change r)%Q.
Proof.
  unfold analyze_benchmark_regression. intros H r Hr. invert_bind H.
  apply (flat_mapM_In _ _ _ H) in Hr. destruct Hr as (t & rs & _ & Hrs & Hr).
  unfold benchmark_type in Hrs. invert_bind Hrs.
  destruct (negb (py_truthy x1) || negb (py_truthy x2)); [injection Hrs as <-; destruct Hr|].
  invert_bind Hrs. apply (flat_mapM_In _ _ _ Hrs) in Hr.
  destruct Hr as (ib & o & _ & Ho & Hr).
  exact (benchmark_result_change _ _ _ _ _ Ho _ Hr).
Qed.

Lemma analyze_bundle_change (self : analyzer) (regs : list regression) :
  analyze_bundle_regression self = Ok regs ->
  forall r, In r regs -> (threshold self < r_change r)%Q.
Proof.
  unfold analyze_bundle_regression. intros H r Hr. invert_bind H.
  destruct (negb (py_truthy x) || negb (py_truthy x0)); [injection H as <-; destruct Hr|].
  invert_bind H. destruct (Qgtb x3 0); [|injection H as <-; destruct Hr].
  invert_bind H.
  destruct (Qgtb ((x4 - x3) / x3) (threshold self)) eqn:Hgt;
    [|injection H as <-; destruct Hr].
  invert_bind H. injection H as <-. destruct Hr as [<- | []].
  apply Qgtb_true in Hgt. exact Hgt.
Qed.

Lemma analyze_lighthouse_change (self : analyzer) (regs : list regression) :
  analyze_lighthouse_regression self = Ok regs ->
  forall r, In r regs ->
    (threshold self < r_change r)%Q /\
    (r_severity r = "critical" <-> (2 # 10 < r_change r)%Q).
Proof.
  intros H r Hr. apply (analyze_lighthouse_In _ _ H) in Hr.
  destruct Hr as (k & bitem & citem & m & rs & _ & _ & _ & Hrs & Hr).
  destruct (lighthouse_metric_cases _ _ _ _ _ _ Hrs)
    as (bv & cv & b & _ & _ & _ & [[_ ->] | [_ (c & _ & [[Hgt ->] | [_ ->]])]]);
    try contradiction.
  destruct Hr as [<- | []]. split; [exact Hgt|].
  exact (proj1 (lighthouse_regression_severity k m bv cv ((b - c) / b)%Q)).
Qed.

(** Every load-test record is a response-time record above the threshold,
    critical iff above 0.5, or an error-rate record above 0.01. *)
Lemma analyze_load_change (self : analyzer) (regs : list regression) :
  analyze_load_test_regression self = Ok regs ->
  forall r, In r regs ->
    ((exists x, r_metric r = x ++ "-response_time") /\
     (threshold self < r_change r)%Q /\
     (r_severity r = "critical" <-> (5 # 10 < r_change r)%Q)) \/
    ((exists x, r_metric r = x ++ "-error_rate") /\
     (1 # 100 < r_change r)%Q /\ r_severity r = "critical").
Proof.
  intros H r Hr.
  destruct (analyze_load_inv _ _ H) as (bitems & citems & bg & cg & _ & _ & _ & _ & Hfm).
  apply (flat_mapM_In _ _ _ Hfm) in Hr. destruct Hr as (kv & ra & _ & Hra & Hr).
  unfold load_entry in Hra. destruct (dict_lookup key_eqb (fst kv) cg) as [ci|];
    [|injection Hra as <-; destruct Hr].
  invert_bind Hra. injection Hra as <-. apply in_app_iff in Hr. destruct Hr as [Hr | Hr].
  - left.
    destruct (response_time_check_cases _ _ _ _ _ E)
      as (bv & cv & b & _ & _ & _ & [[_ ->] | [_ (c & _ & [[Hgt ->] | [_ ->]])]]);
      try contradiction.
    destruct Hr as [<- | []]. cbn [r_metric r_change r_severity response_time_regression].
    split; [eauto|]. split; [exact Hgt|].
    destruct (Qgtb ((c - b) / b) (5 # 10)) eqn:Hs.
    + apply Qgtb_true in Hs. tauto.
    + apply Qgtb_false in Hs. split; [discriminate | contradiction].
  - right.
    destruct (error_rate_check_cases _ _ _ _ E0)
      as (bv & cv & b & c & _ & _ & _ & _ & [[Hgt ->] | [_ ->]]); [|destruct Hr].
    destruct Hr as [<- | []]. cbn [r_metric r_change r_severity error_rate_regression].
    split; [eauto|]. split; [exact Hgt | reflexivity].
Qed.

(** X9. The report holds only degradations beyond a limit: the change of
    every record exceeds the threshold, except for error-rate records,
    whose change exceeds 0.01.  With a threshold that is not negative,
    every change reported is positive: an improved or unchanged metric is
    never reported. *)
Theorem reported_changes_exceed_limit (self : analyzer) (now : string)
    (rep : report) :
  analyze_regressions self now = Ok rep ->
  (forall r, In r (all_regressions rep) ->
     (threshold self < r_change r)%Q \/
     (r_type r = "load_test" /\ (exists x, r_metric r = x ++ "-error_rate") /\
      (1 # 100 < r_change r)%Q)) /\
  ((0 <= threshold self)%Q ->
   forall r, In r (all_regressions rep) -> (0 < r_change r)%Q).
Proof.
  intros H.
  destruct (analyze_regressions_inv _ _ _ H)
    as (lh & ld & bn & bu & Hlh & Hld & Hbn & Hbu & -> & _).
  assert (Hall : forall r, In r (lh ++ ld ++ bn ++ bu) ->
            (threshold self < r_change r)%Q \/
            (r_type r = "load_test" /\ (exists x, r_metric r = x ++ "-error_rate") /\
             (1 # 100 < r_change r)%Q)).
  { intros r Hr. rewrite !in_app_iff in Hr. destruct Hr as [Hr | [Hr | [Hr | Hr]]].
    - left. exact (proj1 (analyze_lighthouse_change _ _ Hlh r Hr)).
    - destruct (analyze_load_change _ _ Hld r Hr) as [(_ & Hgt & _) | (Hx & Hgt & _)].
      + left. exact Hgt.
      + right. split; [exact (proj1 (analyze_load_records _ _ Hld r Hr))|]. auto.
    - left. exact (analyze_benchmark_change _ _ Hbn r Hr).
    - left. exact (analyze_bundle_change _ _ Hbu r Hr). }
  split; [exact Hall|]. intros Hth r Hr.
  destruct (Hall r Hr) as [Hgt | (_ & _ & Hgt)].
  - exact (Qle_lt_trans _ _ _ Hth Hgt).
  - apply Qlt_trans with (1 # 100)%Q; [reflexivity | exact Hgt].
Qed.

(** X10. Only page audits and load tests can fail the gate: every critical
    regression of a report is a page-audit or a load-test regression;
    benchmark and bundle regressions are always moderate.  With a
    threshold of 0.2 or more every page-audit regression is critical, and
    with 0.5 or more so is every load-test regression. *)
Theorem critical_regression_families (self : analyzer) (now : string) (rep : report) :
  analyze_regressions self now = Ok rep ->
  (forall r, In r (criticalRegressions rep) ->
     r_type r = "lighthouse" \/ r_type r = "load_test") /\
  (forall r, In r (all_regressions rep) ->
     r_type r = "benchmark" \/ r_type r = "bundle" -> In r (moderateRegressions rep)) /\
  ((2 # 10 <= threshold self)%Q ->
   forall r, In r (all_regressions rep) -> r_type r = "lighthouse" ->
     In r (criticalRegressions rep)) /\
  ((5 # 10 <= threshold self)%Q ->
   forall r, In r (all_regressions rep) -> r_type r = "load_test" ->
     In r (criticalRegressions rep)).
Proof.
  intros H.
  destruct (analyze_regressions_inv _ _ _ H)
    as (lh & ld & bn & bu & Hlh & Hld & Hbn & Hbu & Hall & -> & -> & _).
  rewrite Hall. clear Hall.
  assert (Hin : forall r, In r (lh ++ ld ++ bn ++ bu) ->
            (In r lh /\ r_type r = "lighthouse") \/ (In r ld /\ r_type r = "load_test") \/
            (r_type r = "benchmark" /\ r_severity r = "moderate") \/
            (r_type r = "bundle" /\ r_severity r = "moderate")).
  { intros r Hr. rewrite !in_app_iff in Hr. destruct Hr as [Hr | [Hr | [Hr | Hr]]].
    - left. split; [exact Hr | exact (proj1 (analyze_lighthouse_records _ _ Hlh r Hr))].
    - right; left. split; [exact Hr | exact (proj1 (analyze_load_records _ _ Hld r Hr))].
    - right; right; left. exact (analyze_benchmark_records _ _ Hbn r Hr).
    - right; right; right. exact (analyze_bundle_records _ _ Hbu r Hr). }
  repeat apply conj.
  - intros r Hr. apply filter_In in Hr. destruct Hr as [Hr Hs].
    apply has_severity_true in Hs.
    destruct (Hin r Hr) as [[_ Ht] | [[_ Ht] | [[_ Hm] | [_ Hm]]]]; auto;
      rewrite Hs in Hm; discriminate.
  - intros r Hr Ht. apply filter_In. split; [exact Hr|]. apply has_severity_true.
    destruct (Hin r Hr) as [[_ Ht'] | [[_ Ht'] | [[_ Hm] | [_ Hm]]]]; auto;
      destruct Ht as [Ht | Ht]; rewrite Ht in Ht'; discriminate.
  - intros Hth r Hr Ht. apply filter_In. split; [exact Hr|]. apply has_severity_true.
    destruct (Hin r Hr) as [[Hl _] | [[_ Ht'] | [[Ht' _] | [Ht' _]]]];
      try (rewrite Ht in Ht'; discriminate).
    destruct (analyze_lighthouse_change _ _ Hlh r Hl) as [Hgt Hs].
    apply Hs. exact (Qle_lt_trans _ _ _ Hth Hgt).
  - intros Hth r Hr Ht. apply filter_In. split; [exact Hr|]. apply has_severity_true.
    destruct (Hin r Hr) as [[_ Ht'] | [[Hl _] | [[Ht' _] | [Ht' _]]]];
      try (rewrite Ht in Ht'; discriminate).
    destruct (analyze_load_change _ _ Hld r Hl) as [(_ & Hgt & Hs) | (_ & _ & Hs)];
      [|exact Hs].
    apply Hs. exact (Qle_lt_trans _ _ _ Hth Hgt).
Qed.

(** ** Shape of the recommendations *)

Lemma existsb_type (t : string) (regs : list regression) :
  existsb (has_type t) regs = true <-> exists r, In r regs /\ r_type r = t.
Proof.
  rewrite existsb_exists. unfold has_type. split; intros (r & Hr & Ht); exists r;
    (split; [exact Hr|]); apply String.eqb_eq; exact Ht.
Qed.

Lemma existsb_severity (s : string) (regs : list regression) :
  existsb (has_severity s) regs = true <-> exists r, In r regs /\ r_severity r = s.
Proof.
  rewrite existsb_exists. unfold has_severity. split; intros (r & Hr & Ht); exists r;
    (split; [exact Hr|]); apply String.eqb_eq; exact Ht.
Qed.

(** The recommendations in terms of which families and severities occur. *)
Lemma generate_recommendations_flags (regs : list regression) :
  generate_recommendations regs
  = match
      ((if existsb (has_type "bundle") regs then [msg_bundle] else [])
       ++ (if existsb (has_type "lighthouse") regs then [msg_lighthouse] else [])
       ++ (if existsb (has_type "load_test") regs then [msg_load] else [])
       ++ (if existsb (has_type "benchmark") regs then [msg_benchmark] else [])
       ++ (if existsb (has_severity "critical") regs then [msg_critical] else []))%list
    with
    | [] => [msg_none]
    | l => l
    end.
Proof.
  unfold generate_recommendations. rewrite !append_if_filter.
  rewrite <- !app_assoc. cbn [app].
  match goal with
  | |- match ?l with _ => _ end = _ => destruct l; reflexivity
  end.
Qed.

Lemma critical_warning_flag (regs : list regression) :
  In msg_critical (generate_recommendations regs)
  <-> existsb (has_severity "critical") regs = true.
Proof.
  rewrite generate_recommendations_flags.
  destruct (existsb (has_type "bundle") regs), (existsb (has_type "lighthouse") regs),
    (existsb (has_type "load_test") regs), (existsb (has_type "benchmark") regs),
    (existsb (has_severity "critical") regs); simpl;
    (split; [intros H | intros H; try discriminate; tauto]); try reflexivity;
    repeat (destruct H as [H | H]; [discriminate|]); destruct H.
Qed.

(** X11. Whatever the list of records, the recommendations are never
    empty, hold no message twice and at most five messages; each family
    message is present iff a record of that family is, the critical
    warning iff a record is critical, and the positive message iff it is
    the only message, which is the case iff no record is of one of the four
    families or critical. *)
Theorem recommendations_shape (regs : list regression) :
  let recs := generate_recommendations regs in
  recs <> [] /\ (List.length recs <= 5)%nat /\ NoDup recs /\
  (In msg_bundle recs <-> exists r, In r regs /\ r_type r = "bundle") /\
  (In msg_lighthouse recs <-> exists r, In r regs /\ r_type r = "lighthouse") /\
  (In msg_load recs <-> exists r, In r regs /\ r_type r = "load_test") /\
  (In msg_benchmark recs <-> exists r, In r regs /\ r_type r = "benchmark") /\
  (In msg_critical recs <-> exists r, In r regs /\ r_severity r = "critical") /\
  (In msg_none recs <-> recs = [msg_none]) /\
  (recs = [msg_none] <->
   forall r, In r regs -> ~ In (r_type r) families /\ r_severity r <> "critical").
Proof.
  cbv zeta.
  assert (Hnone : (forall r, In r regs ->
                     ~ In (r_type r) families /\ r_severity r <> "critical")
                  <-> existsb (has_type "bundle") regs = false
                      /\ existsb (has_type "lighthouse") regs = false
                      /\ existsb (has_type "load_test") regs = false
                      /\ existsb (has_type "benchmark") regs = false
                      /\ existsb (has_severity "critical") regs = false).
  { split.
    - intros H. repeat split;
        match goal with
        | |- ?e = false => destruct e eqn:E; [|reflexivity]
        end;
        first [apply existsb_type in E | apply existsb_severity in E];
        destruct E as (r & Hr & Ht); destruct (H r Hr) as [Hf Hs]; exfalso;
        first [apply Hs; exact Ht | apply Hf; rewrite Ht; simpl; tauto].
    - intros (H1 & H2 & H3 & H4 & H5) r Hr. split.
      + intros Hf. simpl in Hf.
        destruct Hf as [Hf | [Hf | [Hf | [Hf | []]]]]; symmetry in Hf;
          [ assert (E : existsb (has_type "lighthouse") regs = true)
              by (apply existsb_type; eauto)
          | assert (E : existsb (has_type "load_test") regs = true)
              by (apply existsb_type; eauto)
          | assert (E : existsb (has_type "benchmark") regs = true)
              by (apply existsb_type; eauto)
          | assert (E : existsb (has_type "bundle") regs = true)
              by (apply existsb_type; eauto) ]; congruence.
      + intros Hs.
        assert (E : existsb (has_severity "critical") regs = true)
          by (apply existsb_severity; eauto). congruence. }
  rewrite Hnone. rewrite <- !existsb_type, <- existsb_severity.
  rewrite generate_recommendations_flags.
  destruct (existsb (has_type "bundle") regs), (existsb (has_type "lighthouse") regs),
    (existsb (has_type "load_test") regs), (existsb (has_type "benchmark") regs),
    (existsb (has_severity "critical") regs); cbn [app];
    (split; [discriminate|]); (split; [simpl; lia|]);
    (split; [repeat constructor; simpl; intros H;
             repeat (destruct H as [H | H]; [discriminate|]); exact H|]);
    repeat split; try reflexivity; try discriminate; try (simpl; tauto);
    try (intros H; exfalso; revert H; simpl; intros H;
         repeat (destruct H as [H | H]; [discriminate|]); exact H);
    try (intros (H1 & H2 & H3 & H4 & H5); discriminate).
Qed.

(** ** The critical warning and the exit status *)

Lemma filter_nil_existsb {A : Type} (p : A -> bool) (l : list A) :
  filter p l = [] <-> existsb p l = false.
Proof.
  induction l as [|a l IH]; simpl; [tauto|].
  destruct (p a); simpl; [split; discriminate | exact IH].
Qed.

(** The report a run writes is the one the analysis returns, and decides
    the exit status. *)
Lemma main_report_inv (th : Q) (fs : files) (now_load now_report : string)
    (rep : report) :
  snd (main th fs now_load now_report) = Some rep ->
  exists self,
    analyze_regressions self now_report = Ok rep /\
    threshold self = th /\
    fst (main th fs now_load now_report)
    = match criticalRegressions rep with [] => 0 | _ => 1 end.
Proof.
  unfold main.
  destruct (load_baseline (init th) (baseline_file fs)) as [a ok] eqn:Eb.
  destruct ok; cbn [negb]; [|discriminate].
  assert (Hth := load_current_data_threshold a fs now_load).
  destruct (load_current_data a fs now_load) as [a' ok']. cbn [fst] in Hth.
  destruct ok'; cbn [negb]; [|discriminate].
  destruct (analyze_regressions a' now_report) as [r|e] eqn:Ea; [|discriminate].
  unfold save_report. destruct (output_writable fs); cbn [negb]; [|discriminate].
  assert (Ha : threshold a = th).
  { unfold load_baseline in Eb.
    destruct (baseline_file fs); [injection Eb as <-; reflexivity | discriminate]. }
  destruct (criticalRegressions r) eqn:Ec; cbn [fst snd]; intros [= <-];
    exists a'; rewrite Ec; repeat split; congruence.
Qed.

(** X12. In a report that was written, the critical warning is among the
    recommendations iff the run ends with status 1, and absent iff it ends
    with status 0. *)
Theorem critical_warning_iff_exit_1 (th : Q) (fs : files)
    (now_load now_report : string) (rep : report) :
  snd (main th fs now_load now_report) = Some rep ->
  (fst (main th fs now_load now_report) = 1
   <-> In msg_critical (recommendations rep)) /\
  (fst (main th fs now_load now_report) = 0
   <-> ~ In msg_critical (recommendations rep)).
Proof.
  intros H. destruct (main_report_inv _ _ _ _ _ H) as (self & Ha & _ & ->).
  destruct (analyze_regressions_inv _ _ _ Ha)
    as (_ & _ & _ & _ & _ & _ & _ & _ & _ & Hc & _ & -> & _).
  rewrite critical_warning_flag.
  destruct (criticalRegressions rep) as [|r l] eqn:Ec.
  - symmetry in Hc. apply filter_nil_existsb in Hc. rewrite Hc.
    repeat split; try discriminate; auto.
  - destruct (existsb (has_severity "critical") (all_regressions rep)) eqn:Ee.
    + repeat split; try discriminate; auto. intros Hn. destruct (Hn eq_refl).
    + apply filter_nil_existsb in Ee. rewrite Ee in Hc. discriminate.
Qed.

(** ** One record per page and score category *)

Lemma flat_mapM_NoDup {A B C : Type} (f : A -> result (list B)) (g : B -> C)
    (l : list A) (rs : list B) :
  NoDup l ->
  (forall a ra, In a l -> f a = Ok ra -> NoDup (map g ra)) ->
  (forall a a' ra ra' x x',
     In a l -> In a' l -> f a = Ok ra -> f a' = Ok ra' ->
     In x ra -> In x' ra' -> g x = g x' -> a = a') ->
  flat_mapM f l = Ok rs -> NoDup (map g rs).
Proof.
  revert rs; induction l as [|a l IH]; simpl; intros rs Hnd Hblock Hcross H.
  - injection H as <-. constructor.
  - invert_bind H. injection H as <-. inversion Hnd as [|? ? Hnotin Hnd']; subst.
    rewrite map_app. apply NoDup_app.
    + apply (Hblock a); auto.
    + apply IH; auto.
      * intros b rb Hb. apply Hblock. auto.
      * intros b b' rb rb' y y' Hb Hb'. apply Hcross; auto.
    + intros c Hc Hc'. apply in_map_iff in Hc, Hc'.
      destruct Hc as (y & Hy & Hiny). destruct Hc' as (y' & Hy' & Hiny').
      apply (flat_mapM_In _ _ _ E0) in Hiny'. destruct Hiny' as (b & rb & Hb & Hfb & Hinb).
      assert (Heq : a = b).
      { apply (Hcross a b x rb y y'); auto. congruence. }
      subst b. exact (Hnotin Hb).
Qed.

Lemma dict_wf_NoDup {K V : Type} (keq : K -> K -> bool) (d : list (K * V)) :
  (forall k v, In (k, v) d -> keq k k = true) -> dict_wf keq d -> NoDup d.
Proof.
  induction d as [|[k v] d IH]; simpl; intros Hrefl Hwf; [constructor|].
  destruct Hwf as [Hk Hd]. constructor.
  - intros Hin. assert (H1 := Hk _ _ Hin).
    assert (H2 := Hrefl k v (or_introl eq_refl)). congruence.
  - apply IH; [|exact Hd]. intros k' v' H'. apply (Hrefl k' v'). right. exact H'.
Qed.

Lemma lighthouse_metric_name (th : Q) (k : string) (bitem citem : json)
    (m : string) (rs : list regression) :
  lighthouse_metric th k bitem citem m = Ok rs ->
  (List.length rs <= 1)%nat /\ forall r, In r rs -> r_metric r = k ++ "-" ++ m.
Proof.
  intros H.
  destruct (lighthouse_metric_cases _ _ _ _ _ _ H)
    as (bv & cv & b & _ & _ & _ & [[_ ->] | [_ (c & _ & [[_ ->] | [_ ->]])]]);
    (split; [simpl; lia|]); intros r Hr; try destruct Hr as [<- | []];
    try reflexivity; destruct Hr.
Qed.

Lemma lighthouse_entry_names (th : Q) (cg : list (string * json))
    (kv : string * json) (ra : list regression) :
  lighthouse_entry th cg kv = Ok ra ->
  (List.length ra <= 4)%nat /\
  NoDup (map r_metric ra) /\
  forall r, In r ra -> exists m, In m lighthouse_metrics /\ r_metric r = fst kv ++ "-" ++ m.
Proof.
  unfold lighthouse_entry. destruct (dict_lookup String.eqb (fst kv) cg) as [citem|].
  - intros H. split; [|split].
    + unfold lighthouse_metrics in H. cbn [flat_mapM] in H. invert_bind H.
      injection H as <-. invert_bind E0. injection E0 as <-.
      invert_bind E2. injection E2 as <-. invert_bind E3. injection E3 as <-.
      injection E4 as <-.
      apply lighthouse_metric_name in E, E1, E0, E2.
      rewrite !length_app. simpl. lia.
    + apply (flat_mapM_NoDup _ r_metric _ _) with (4 := H).
      * unfold lighthouse_metrics. repeat constructor; simpl; intros Hin;
          repeat (destruct Hin as [Hin | Hin]; [discriminate|]); exact Hin.
      * intros m rs _ Hrs. destruct (lighthouse_metric_name _ _ _ _ _ _ Hrs) as [Hlen _].
        destruct rs as [|r [|r' rs]]; simpl in *; try lia; repeat constructor; auto.
      * intros m m' rs rs' x x' Hm Hm' Hrs Hrs' Hx Hx' Heq.
        rewrite (proj2 (lighthouse_metric_name _ _ _ _ _ _ Hrs) _ Hx) in Heq.
        rewrite (proj2 (lighthouse_metric_name _ _ _ _ _ _ Hrs') _ Hx') in Heq.
        exact (proj2 (lighthouse_metric_name_inj _ _ _ _ Hm Hm' Heq)).
    + intros r Hr. apply (flat_mapM_In _ _ _ H) in Hr.
      destruct Hr as (m & rs & Hm & Hrs & Hr). exists m. split; [exact Hm|].
      exact (proj2 (lighthouse_metric_name _ _ _ _ _ _ Hrs) _ Hr).
  - intros [= <-]. split; [simpl; lia|]. split; [constructor | intros r []].
Qed.

Lemma flat_mapM_length {A B : Type} (f : A -> result (list B)) (n : nat)
    (l : list A) (rs : list B) :
  (forall a ra, In a l -> f a = Ok ra -> (List.length ra <= n)%nat) ->
  flat_mapM f l = Ok rs -> (List.length rs <= n * List.length l)%nat.
Proof.
  revert rs; induction l as [|a l IH]; simpl; intros rs Hn H.
  - injection H as <-. simpl. lia.
  - invert_bind H. injection H as <-. rewrite length_app.
    assert (H1 := Hn a x (or_introl eq_refl) E).
    assert (H2 := IH x0 (fun b rb Hb => Hn b rb (or_intror Hb)) E0). lia.
Qed.

Lemma dict_set_length {K V : Type} (keq : K -> K -> bool) (k : K) (v : V)
    (d : list (K * V)) :
  (List.length (dict_set keq k v d) <= S (List.length d))%nat.
Proof.
  induction d as [|[k0 v0] d IH]; simpl; [lia|].
  destruct (keq k0 k); simpl; lia.
Qed.

Lemma group_items_length {K V : Type} (keq : K -> K -> bool) (key : V -> result K)
    (items : list V) (acc g : list (K * V)) :
  group_items keq key items acc = Ok g ->
  (List.length g <= List.length acc + List.length items)%nat.
Proof.
  revert acc; induction items as [|item items IH]; simpl; intros acc H.
  - injection H as <-. lia.
  - invert_bind H. apply IH in H.
    assert (Hs := dict_set_length keq x item acc). lia.
Qed.

(** X13. The page-audit comparator emits at most one regression per
    device-page key and score category: no two of its records bear the
    same metric name; and it emits at most four records per baseline
    audit. *)
Theorem lighthouse_one_record_per_metric (self : analyzer) (regs : list regression)
    (bitems : list json) :
  analyze_lighthouse_regression self = Ok regs ->
  lighthouse_items (baseline_data self) = Ok bitems ->
  NoDup (map r_metric regs) /\
  (List.length regs <= 4 * List.length bitems)%nat.
Proof.
  unfold analyze_lighthouse_regression, lighthouse_items. intros H Hitems.
  invert_bind H. rewrite E in Hitems. cbn [bind] in Hitems.
  rewrite E1 in Hitems. injection Hitems as <-.
  unfold group_lighthouse in E2, E4.
  assert (Hwf : dict_wf String.eqb x2) by exact (group_items_wf _ _ _ _ _ E2 I).
  split.
  - apply (flat_mapM_NoDup _ r_metric _ _) with (4 := H).
    + apply (dict_wf_NoDup String.eqb); [|exact Hwf]. intros k v _. apply String.eqb_refl.
    + intros kv ra _ Hra. exact (proj1 (proj2 (lighthouse_entry_names _ _ _ _ Hra))).
    + intros [k v] [k' v'] ra ra' y y' Hin Hin' Hra Hra' Hy Hy' Heq.
      destruct (proj2 (proj2 (lighthouse_entry_names _ _ _ _ Hra)) _ Hy) as (m & Hm & Hn).
      destruct (proj2 (proj2 (lighthouse_entry_names _ _ _ _ Hra')) _ Hy') as (m' & Hm' & Hn').
      cbn [fst] in Hn, Hn'. rewrite Hn, Hn' in Heq.
      destruct (lighthouse_metric_name_inj _ _ _ _ Hm Hm' Heq) as [<- _].
      assert (H1 := dict_wf_lookup String.eqb k v x2 Hwf (String.eqb_refl k) Hin).
      assert (H2 := dict_wf_lookup String.eqb k v' x2 Hwf (String.eqb_refl k) Hin').
      congruence.
  - assert (Hlen := flat_mapM_length _ 4 _ _
                      (fun kv ra _ Hra => proj1 (lighthouse_entry_names _ _ _ _ Hra)) H).
    assert (Hg := group_items_length _ _ _ _ _ E2). simpl in Hg. lia.
Qed.

(** ** Malformed and well-formed input *)

Lemma load_current_data_baseline (self : analyzer) (fs : files) (now : string) :
  baseline_data (fst (load_current_data self fs now)) = baseline_data self.
Proof.
  unfold load_current_data.
  destruct (read_all (lighthouse_files fs)); [|reflexivity].
  destruct (read_all (load_test_files fs)); [|reflexivity].
  destruct (read_first (benchmark_files fs)); [|reflexivity].
  destruct (read_first (bundle_files fs)); reflexivity.
Qed.

(** X14. A baseline file that holds anything but a JSON object makes the
    analysis raise [AttributeError] at its first access: the run writes no
    report and ends with status 1. *)
Theorem non_object_baseline_fails (th : Q) (fs : files)
    (now_load now_report : string) (base : json) :
  baseline_file fs = Some base ->
  (forall kvs, base <> JObj kvs) ->
  (forall self, baseline_data self = base ->
     analyze_regressions self now_report = Raise AttributeError) /\
  main th fs now_load now_report = (1, None).
Proof.
  intros Hb Hno.
  assert (Han : forall self, baseline_data self = base ->
            analyze_regressions self now_report = Raise AttributeError).
  { intros self Hs. unfold analyze_regressions, analyze_lighthouse_regression.
    rewrite Hs. destruct base; try reflexivity. destruct (Hno kvs eq_refl). }
  split; [exact Han|]. unfold main. rewrite Hb. cbn [load_baseline negb].
  match goal with
  | |- context [load_current_data ?a fs now_load] =>
      assert (Hbase := load_current_data_baseline a fs now_load);
      destruct (load_current_data a fs now_load) as [a' ok]
  end.
  cbn [fst baseline_data] in Hbase. destruct ok; cbn [negb]; [|reflexivity].
  rewrite (Han a' Hbase). reflexivity.
Qed.








(** ** Raising the threshold, for a whole run *)



(** ** Malformed load-test records *)

Lemma group_items_keyed {K V : Type} (keq : K -> K -> bool) (key : V -> result K)
    (items : list V) (acc g : list (K * V)) :
  group_items keq key items acc = Ok g ->
  forall item, In item items -> exists k, key item = Ok k.
Proof.
  revert acc; induction items as [|item items IH]; simpl; intros acc H it Hit;
    [contradiction|].
  invert_bind H. destruct Hit as [<- | Hit]; eauto.
Qed.

(** X17. A load-test record that is not an object, or whose scenario is a
    list or an object (which cannot be a dictionary key), stops the
    analysis, in the baseline as in the current run. *)
Theorem malformed_load_test_raises (self : analyzer) (now : string)
    (items : list json) (item : json) :
  load_items (baseline_data self) = Ok items \/
  load_items (current_data self) = Ok items ->
  In item items ->
  (forall kvs, item <> JObj kvs) \/
  (exists s, dict_get item "scenario" (JStr "unknown") = Ok s /\ hashable s = false) ->
  exists e,
    analyze_load_test_regression self = Raise e /\
    forall lh, analyze_lighthouse_regression self = Ok lh ->
      analyze_regressions self now = Raise e.
Proof.
  intros Hitems Hin Hbad.
  assert (Hkey : forall k, scenario_key item <> Ok k).
  { intros k Hk. unfold scenario_key in Hk. destruct Hbad as [Hno | (s & Hs & Hh)].
    - destruct item; try discriminate. destruct (Hno kvs eq_refl).
    - rewrite Hs in Hk. cbn [bind] in Hk. rewrite Hh in Hk. discriminate. }
  destruct (analyze_load_test_regression self) as [regs|e] eqn:Han.
  - exfalso.
    destruct (analyze_load_inv _ _ Han) as (bitems & citems & bg & cg & Hbi & Hci & Hbg & Hcg & _).
    unfold group_load in Hbg, Hcg.
    destruct Hitems as [Hi | Hi]; [rewrite Hbi in Hi | rewrite Hci in Hi];
      injection Hi as <-.
    + destruct (group_items_keyed _ _ _ _ _ Hbg item Hin) as (k & Hk).
      exact (Hkey k Hk).
    + destruct (group_items_keyed _ _ _ _ _ Hcg item Hin) as (k & Hk).
      exact (Hkey k Hk).
  - exists e. split; [reflexivity|]. intros lh Hlh. unfold analyze_regressions.
    rewrite Hlh, Han. reflexivity.
Qed.

(** X18. The load-test comparator emits at most two regressions per
    baseline record, one for the response time and one for the error
    rate. *)
Theorem load_test_at_most_two_per_record (self : analyzer) (regs : list regression)
    (bitems : list json) :
  analyze_load_test_regression self = Ok regs ->
  load_items (baseline_data self) = Ok bitems ->
  (List.length regs <= 2 * List.length bitems)%nat.
Proof.
  intros Han Hitems.
  destruct (analyze_load_inv _ _ Han) as (bitems' & citems & bg & cg & Hbi & _ & Hbg & _ & Hfm).
  rewrite Hbi in Hitems. injection Hitems as <-.
  assert (Hlen : (List.length regs <= 2 * List.length bg)%nat).
  { apply (flat_mapM_length _ 2 _ _) with (2 := Hfm). intros kv ra _ Hra.
    unfold load_entry in Hra. destruct (dict_lookup key_eqb (fst kv) cg);
      [|injection Hra as <-; simpl; lia].
    invert_bind Hra. injection Hra as <-. rewrite length_app.
    destruct (response_time_check_cases _ _ _ _ _ E)
      as (? & ? & ? & _ & _ & _ & [[_ ->] | [_ (? & _ & [[_ ->] | [_ ->]])]]);
      destruct (error_rate_check_cases _ _ _ _ E0)
        as (? & ? & ? & ? & _ & _ & _ & _ & [[_ ->] | [_ ->]]); simpl; lia. }
  unfold group_load in Hbg. assert (Hg := group_items_length _ _ _ _ _ Hbg).
  simpl in Hg. lia.
Qed.

(** ** Further worked examples *)



Lemma demo_main_report :
  snd (main (1 # 10) demo_files demo_clock demo_clock) = Some demo_report.
Proof. vm_compute. reflexivity. Qed.




Lemma identical_snapshots_no_regression_witness :
  (0 <= threshold demo_self_compare)%Q /\
  (forall key default, In key family_keys ->
     dict_get (current_data demo_self_compare) key default
     = dict_get (baseline_data demo_self_compare) key default) /\
  (exists rep,
     analyze_regressions demo_self_compare demo_clock = Ok rep /\
     all_regressions rep = [] /\ criticalRegressions rep = [] /\
     moderateRegressions rep = [] /\ recommendations rep = [msg_none]).
Proof.
  assert (H1 : (0 <= threshold demo_self_compare)%Q) by (unfold Qle; simpl; lia).
  assert (H2 : forall key default, In key family_keys ->
            dict_get (current_data demo_self_compare) key default
            = dict_get (baseline_data demo_self_compare) key default)
    by (intros; reflexivity).
  split; [exact H1|]. split; [exact H2|].
  destruct (analyze_regressions demo_self_compare demo_clock) as [rep|e] eqn:E;
    [|vm_compute in E; discriminate].
  exists rep. split; [reflexivity|].
  exact (identical_snapshots_no_regression demo_self_compare demo_clock rep H1 H2 E).
Defined.

Lemma empty_current_run_witness :
  baseline_file demo_empty_files = Some demo_baseline /\
  lighthouse_files demo_empty_files = [] /\ load_test_files demo_empty_files = [] /\
  benchmark_files demo_empty_files = [] /\ bundle_files demo_empty_files = [] /\
  match snd (main (1 # 10) demo_empty_files demo_clock demo_clock) with
  | Some rep =>
      fst (main (1 # 10) demo_empty_files demo_clock demo_clock) = 0 /\
      all_regressions rep = [] /\ recommendations rep = [msg_none]
  | None => fst (main (1 # 10) demo_empty_files demo_clock demo_clock) = 1
  end.
Proof.
  do 5 (split; [reflexivity|]).
  exact (empty_current_run (1 # 10) demo_empty_files demo_clock demo_clock demo_baseline
           eq_refl eq_refl eq_refl eq_refl eq_refl).
Defined.

Lemma report_grouped_by_family_witness :
  analyze_regressions demo demo_clock = Ok demo_report /\
  analyze_bundle_regression demo
  = Ok (filter (has_type "bundle") (all_regressions demo_report)).
Proof.
  split; [exact demo_report_eq|].
  exact (proj2 (proj2 (proj2 (proj2
           (report_grouped_by_family demo demo_clock demo_report demo_report_eq))))).
Defined.

Lemma reported_changes_exceed_limit_witness :
  analyze_regressions demo demo_clock = Ok demo_report /\
  (0 <= threshold demo)%Q /\
  forall r, In r (all_regressions demo_report) -> (0 < r_change r)%Q.
Proof.
  assert (H : (0 <= threshold demo)%Q) by (unfold Qle; simpl; lia).
  split; [exact demo_report_eq|]. split; [exact H|].
  exact (proj2 (reported_changes_exceed_limit demo demo_clock demo_report
                  demo_report_eq) H).
Defined.

Lemma critical_regression_families_witness :
  analyze_regressions demo demo_clock = Ok demo_report /\
  forall r, In r (criticalRegressions demo_report) ->
    r_type r = "lighthouse" \/ r_type r = "load_test".
Proof.
  split; [exact demo_report_eq|].
  exact (proj1 (critical_regression_families demo demo_clock demo_report
                  demo_report_eq)).
Defined.

Lemma critical_warning_iff_exit_1_witness :
  snd (main (1 # 10) demo_files demo_clock demo_clock) = Some demo_report /\
  (fst (main (1 # 10) demo_files demo_clock demo_clock) = 1
   <-> In msg_critical (recommendations demo_report)).
Proof.
  split; [exact demo_main_report|].
  exact (proj1 (critical_warning_iff_exit_1 (1 # 10) demo_files demo_clock demo_clock
                  demo_report demo_main_report)).
Defined.

Lemma lighthouse_one_record_per_metric_witness :
  analyze_lighthouse_regression demo = Ok demo_lighthouse /\
  lighthouse_items (baseline_data demo)
  = Ok [JObj demo_home_stale; JObj demo_home_baseline; JObj [("performance", JInt 80)]] /\
  NoDup (map r_metric demo_lighthouse) /\
  (List.length demo_lighthouse <= 4 * 3)%nat.
Proof.
  assert (H : lighthouse_items (baseline_data demo)
              = Ok [JObj demo_home_stale; JObj demo_home_baseline;
                    JObj [("performance", JInt 80)]]) by reflexivity.
  split; [exact demo_lighthouse_eq|]. split; [exact H|].
  exact (lighthouse_one_record_per_metric demo demo_lighthouse _ demo_lighthouse_eq H).
Defined.

Lemma non_object_baseline_fails_witness :
  baseline_file array_baseline_files = Some (JArr []) /\
  (forall kvs, JArr [] <> JObj kvs) /\
  main (1 # 10) array_baseline_files demo_clock demo_clock = (1, None).
Proof.
  assert (H : forall kvs, JArr [] <> JObj kvs) by (intros kvs; discriminate).
  split; [reflexivity|]. split; [exact H|].
  exact (proj2 (non_object_baseline_fails (1 # 10) array_baseline_files demo_clock
                  demo_clock (JArr []) eq_refl H)).
Defined.




Lemma malformed_load_test_raises_witness :
  load_items (baseline_data list_scenario_input)
  = Ok [JObj [("scenario", JArr [JStr "smoke"])]] /\
  hashable (JArr [JStr "smoke"]) = false /\
  exists e, analyze_load_test_regression list_scenario_input = Raise e /\
    forall lh, analyze_lighthouse_regression list_scenario_input = Ok lh ->
      analyze_regressions list_scenario_input demo_clock = Raise e.
Proof.
  split; [reflexivity|]. split; [reflexivity|].
  apply (malformed_load_test_raises list_scenario_input demo_clock
           [JObj [("scenario", JArr [JStr "smoke"])]]
           (JObj [("scenario", JArr [JStr "smoke"])])).
  - left. reflexivity.
  - left. reflexivity.
  - right. exists (JArr [JStr "smoke"]). split; reflexivity.
Defined.

Lemma load_test_at_most_two_per_record_witness :
  analyze_load_test_regression demo = Ok demo_load_tests /\
  load_items (baseline_data demo) = Ok [demo_load 100 (1 # 100)] /\
  (List.length demo_load_tests <= 2 * 1)%nat.
Proof.
  split; [exact demo_load_tests_eq|]. split; [reflexivity|].
  exact (load_test_at_most_two_per_record demo demo_load_tests _ demo_load_tests_eq
           eq_refl).
Defined.
